(** * Monitoramento TI Yanomami: the dashboard script [app.py]

    A shallow embedding of the data preparation ([load_data]) and of the
    presentation script that follows it, with the properties of the
    specification stated over them.

    A pandas [DataFrame] is a list of column names and a list of rows, a
    row being a finite map from column names to cells.  A [Series] is the
    list of the cells of one column, in row order. *)

From Stdlib Require Import ZArith QArith Qround Ascii String.
From stdpp Require Import base option list strings gmap sorting.

Local Open Scope Z_scope.

(** ** Cells *)

(** The values a cell of the spreadsheet, or of a derived column, holds.
    [NaN] stands for every missing marker of pandas ([NaN], [NaT], [None]).
    Numbers are the integer codes and integer-valued floats of the columns
    the script reads.  A [Timestamp] counts nanoseconds since 1970-01-01,
    a [Timedelta] is a difference of two of them. *)
Inductive Cell : Type :=
  | NaN
  | Int (z : Z)
  | Str (s : string)
  | Timestamp (ns : Z)
  | Timedelta (ns : Z).

#[global] Instance Cell_eq_dec : EqDecision Cell.
Proof. solve_decision. Defined.

Definition Series : Type := list Cell.

Definition isna (c : Cell) : bool :=
  match c with NaN => true | _ => false end.

(** [Series.fillna(value)] on one cell. *)
Definition fillna (value : Cell) (c : Cell) : Cell :=
  if isna c then value else c.

(** [Series.isin(values)] on one cell. *)
Definition isin (values : list Cell) (c : Cell) : bool :=
  bool_decide (c ∈ values).

(** [series == 1] on one cell. *)
Definition eq_scalar (k : Z) (c : Cell) : bool :=
  match c with Int z => Z.eqb z k | _ => false end.

(** ** Dates *)

Definition NS_PER_DAY : Z := 86400000000000.

(** Days since 1970-01-01 of a date of the proleptic Gregorian calendar. *)
Definition days_from_civil (y m d : Z) : Z :=
  let y := if m <=? 2 then y - 1 else y in
  let era := y / 400 in
  let yoe := y - era * 400 in
  let doy := (153 * (if 2 <? m then m - 3 else m + 9) + 2) / 5 + d - 1 in
  let doe := yoe * 365 + yoe / 4 - yoe / 100 + doy in
  era * 146097 + doe - 719468.

(** The calendar year of a day number. *)
Definition year_from_days (z : Z) : Z :=
  let z := z + 719468 in
  let era := z / 146097 in
  let doe := z - era * 146097 in
  let yoe := (doe - doe / 1460 + doe / 36524 - doe / 146096) / 365 in
  let y := yoe + era * 400 in
  let doy := doe - (365 * yoe + yoe / 4 - yoe / 100) in
  let mp := (5 * doy + 2) / 153 in
  let m := if mp <? 10 then mp + 3 else mp - 9 in
  if m <=? 2 then y + 1 else y.

(** A midnight timestamp, as a date cell of the spreadsheet is read. *)
Definition date (y m d : Z) : Cell :=
  Timestamp (days_from_civil y m d * NS_PER_DAY).

(** [series.dt.year] on one cell. *)
Definition dt_year (c : Cell) : Cell :=
  match c with
  | Timestamp ns => Int (year_from_days (ns / NS_PER_DAY))
  | _ => NaN
  end.

(** [a - b] on two cells of datetime columns. *)
Definition sub_datetime (a b : Cell) : Cell :=
  match a, b with
  | Timestamp x, Timestamp y => Timedelta (x - y)
  | _, _ => NaN
  end.

(** [series.dt.days] on one cell: the whole days of a time difference,
    rounded towards minus infinity. *)
Definition dt_days (c : Cell) : Cell :=
  match c with
  | Timedelta ns => Int (ns / NS_PER_DAY)
  | _ => NaN
  end.

(** [series // 365.25] on one cell: floor division of a whole number of days
    by a float, whose value 365.25 is the rational 1461/4. *)
Definition floordiv_365_25 (c : Cell) : Cell :=
  match c with
  | Int d => Int (Qfloor (inject_Z d / 365.25))
  | _ => NaN
  end.

(** ** Age brackets *)

Definition bins : list Z := [0; 9; 19; 24; 59; 120].

Definition labels : list string :=
  ["Criança (0-9)"; "Adolescente (10-19)"; "Jovem (20-24)";
   "Adulta (25-59)"; "Idosa (60+)"].

(** [pd.cut(x, bins, labels, right=True)] on one value: the label of the
    interval [(lo, hi]] of consecutive bin edges that holds [x]. *)
Fixpoint cut_value (x : Z) (lo : Z) (edges : list Z) (labs : list string)
  : option string :=
  match edges, labs with
  | hi :: edges', lab :: labs' =>
      if (lo <? x) && (x <=? hi) then Some lab
      else cut_value x hi edges' labs'
  | _, _ => None
  end.

Definition cut (bins : list Z) (labels : list string) (c : Cell) : Cell :=
  match c, bins with
  | Int x, lo :: edges =>
      match cut_value x lo edges labels with
      | Some lab => Str lab
      | None => NaN
      end
  | _, _ => NaN
  end.

(** ** Tables *)

Record DataFrame : Type := mkDataFrame {
  columns : list string;
  rows : list (gmap string Cell)
}.

#[global] Instance DataFrame_eq_dec : EqDecision DataFrame.
Proof. solve_decision. Defined.

(** What a key lookup was made with when it failed: a column name, or the
    Python value [False]. *)
Inductive Key : Type :=
  | Col (name : string)
  | PyFalse.

Inductive Exception : Type :=
  | KeyError (key : Key).

(** The outcome of a statement that may raise. *)
Inductive Result (A : Type) : Type :=
  | Ok (a : A)
  | Raise (e : Exception).
Arguments Ok {A} a.
Arguments Raise {A} e.

#[global] Instance Result_ret : MRet Result := fun A a => Ok a.
#[global] Instance Result_bind : MBind Result := fun A B f m =>
  match m with
  | Ok a => f a
  | Raise e => Raise e
  end.

(** The cell of a row under a column. *)
Definition cell (col : string) (r : gmap string Cell) : Cell :=
  default NaN (r !! col).

(** [len(df)]. *)
Definition len (df : DataFrame) : nat := length (rows df).

(** [df.empty]: no row, or no column. *)
Definition empty (df : DataFrame) : bool :=
  bool_decide (len df = 0%nat) || bool_decide (columns df = []).

(** [col in df.columns]. *)
Definition has_column (df : DataFrame) (col : string) : bool :=
  bool_decide (col ∈ columns df).

(** The cells of a column, in row order. *)
Definition column (df : DataFrame) (col : string) : Series :=
  cell col <$> rows df.

(** [df[col]]: the column as a series, [KeyError] when there is none. *)
Definition getitem (df : DataFrame) (col : string) : Result Series :=
  if has_column df col then Ok (column df col)
  else Raise (KeyError (Col col)).

(** [df.get(col)]: the column, or [None]. *)
Definition get (df : DataFrame) (col : string) : option Series :=
  if has_column df col then Some (column df col) else None.

(** [df[col] = series], for a series computed from the rows of [df]: the
    column is overwritten, or added after the last one. *)
Definition setitem (df : DataFrame) (col : string) (s : Series) : DataFrame :=
  {| columns := if has_column df col then columns df else columns df ++ [col];
     rows := zip_with (fun r c => <[col := c]> r) (rows df) s |}.

(** The elements of a list that a boolean mask keeps. *)
Fixpoint select {A : Type} (mask : list bool) (l : list A) : list A :=
  match mask, l with
  | b :: mask', x :: l' => if b then x :: select mask' l' else select mask' l'
  | _, _ => []
  end.

(** [df[mask]], for a boolean series computed from the rows of [df]: a new
    table of the rows the mask keeps. *)
Definition getitem_mask (df : DataFrame) (mask : list bool) : DataFrame :=
  {| columns := columns df; rows := select mask (rows df) |}.

(** [len(df[series == 1])], for a series computed from the rows of [df]. *)
Definition count_present (df : DataFrame) (s : Series) : nat :=
  len (getitem_mask df (eq_scalar 1 <$> s)).

(** [len(df[df[col] == 1])] *)
Definition count_where (df : DataFrame) (col : string) : Result nat :=
  s ← getitem df col;
  mret (count_present df s).

(** ** Code tables *)

Definition map_sinan : gmap Z string :=
  list_to_map [(1, "Sim"); (2, "Não"); (9, "Ignorado"); (3, "Não se aplica");
               (8, "Não se aplica")].

Definition map_conjugal : gmap Z string :=
  list_to_map [(1, "Solteira"); (2, "Casada/União"); (3, "Viúva");
               (4, "Separada"); (8, "N/A"); (9, "Ignorado")].

Definition map_sexo : gmap Z string :=
  list_to_map [(1, "Masculino"); (2, "Feminino"); (3, "Ambos"); (9, "Ignorado")].

(** [series.map(d)] on one cell, for a dictionary keyed by integers: the
    value under the cell, [NaN] when the cell is no key of it. *)
Definition map_dict (d : gmap Z string) (c : Cell) : Cell :=
  match c with
  | Int z => match d !! z with Some v => Str v | None => NaN end
  | _ => NaN
  end.

(** [series.map(d).fillna('Ignorado')] on one cell. *)
Definition decode (d : gmap Z string) (c : Cell) : Cell :=
  fillna (Str "Ignorado") (map_dict d c).

(** ** The data preparation of [load_data] *)

(** Where the source reads [df[col]] under the guard [col in df.columns],
    the lookup cannot raise and the model reads [column df col]. *)

Section Tratamento.

(** What [pd.to_datetime] makes of a cell that is neither a timestamp nor
    missing (a string, a number), given the series it stands in: its
    timestamp, or nothing when pandas cannot read a date in it. *)
Variable parse_datetime : Series -> Cell -> option Z.

(** [pd.to_datetime(series, errors='coerce')]. *)
Definition to_datetime (s : Series) : Series :=
  (fun c =>
     match c with
     | Timestamp ns => Timestamp ns
     | NaN => NaN
     | _ => match parse_datetime s c with
            | Some ns => Timestamp ns
            | None => NaN
            end
     end) <$> s.

(** 1. Filtro Sexo Feminino *)
Definition filtro_sexo_feminino (df : DataFrame) : DataFrame :=
  if has_column df "CS_SEXO"
  then getitem_mask df (isin [Str "F"; Str "2"; Int 2] <$> column df "CS_SEXO")
  else df.

Definition cols_data : list string := ["DT_NOTIFIC"; "DT_NASC"; "DT_OCOR"].

(** 2. Datas: the body of the loop over [cols_data], the loop, then the
    year. *)
Definition datas_step (df : DataFrame) (col : string) : DataFrame :=
  if has_column df col
  then setitem df col (to_datetime (column df col))
  else df.

Definition datas (df : DataFrame) : DataFrame :=
  foldl datas_step df cols_data.

Definition ano_notificacao (df : DataFrame) : Result DataFrame :=
  notific ← getitem df "DT_NOTIFIC";
  mret (setitem df "ANO_NOTIFICACAO" (dt_year <$> notific)).

(** 3. Idade e Faixa Etária *)
Definition idade_calculada (df : DataFrame) : Result DataFrame :=
  notific ← getitem df "DT_NOTIFIC";
  nasc ← getitem df "DT_NASC";
  mret (setitem df "IDADE_CALCULADA"
          (floordiv_365_25 <$> (dt_days <$> zip_with sub_datetime notific nasc))).

Definition faixa_etaria (df : DataFrame) : Result DataFrame :=
  idade ← getitem df "IDADE_CALCULADA";
  mret (setitem df "FAIXA_ETARIA" (cut bins labels <$> idade)).

(** 4. Mapeamentos *)
Definition mapeamento_alcool (df : DataFrame) : DataFrame :=
  if has_column df "AUTOR_ALCO"
  then setitem df "ALCOOL_DESC" (decode map_sinan <$> column df "AUTOR_ALCO")
  else df.

Definition mapeamento_conjugal (df : DataFrame) : DataFrame :=
  if has_column df "SIT_CONJUG"
  then setitem df "SIT_CONJUG_DESC" (decode map_conjugal <$> column df "SIT_CONJUG")
  else df.

(** The statements of [load_data] after the file is read. *)
Definition tratamento (df : DataFrame) : Result DataFrame :=
  let df := filtro_sexo_feminino df in
  let df := datas df in
  df ← ano_notificacao df;
  df ← idade_calculada df;
  df ← faixa_etaria df;
  mret (mapeamento_conjugal (mapeamento_alcool df)).

End Tratamento.

(** ** Strings *)

Definition is_upper (c : ascii) : bool :=
  let n := nat_of_ascii c in (65 <=? n)%nat && (n <=? 90)%nat.
Definition is_lower (c : ascii) : bool :=
  let n := nat_of_ascii c in (97 <=? n)%nat && (n <=? 122)%nat.
Definition to_upper (c : ascii) : ascii :=
  if is_lower c then ascii_of_nat (nat_of_ascii c - 32) else c.
Definition to_lower (c : ascii) : ascii :=
  if is_upper c then ascii_of_nat (nat_of_ascii c + 32) else c.

(** [s.title()], on the ASCII letters the column names are written in: a
    letter that follows a letter is lowered, any other letter is raised. *)
Fixpoint title_from (previous_is_cased : bool) (s : string) : string :=
  match s with
  | EmptyString => EmptyString
  | String c s' =>
      if is_upper c || is_lower c
      then String (if previous_is_cased then to_lower c else to_upper c)
                  (title_from true s')
      else String c (title_from false s')
  end.

Definition title (s : string) : string := title_from false s.

(** [s.replace(old, new)] for a non-empty [old]: every occurrence of [old],
    from the left and without overlap, becomes [new].  [skip] counts the
    characters of an occurrence still to pass over. *)
Fixpoint replace_from (old new : string) (skip : nat) (s : string) : string :=
  match s with
  | EmptyString => EmptyString
  | String c s' =>
      match skip with
      | S k => replace_from old new k s'
      | O =>
          if String.prefix old s
          then new +:+ replace_from old new (String.length old - 1) s'
          else String c (replace_from old new 0 s')
      end
  end.

Definition replace (old new : string) (s : string) : string :=
  replace_from old new 0 s.

(** [s.startswith(p)] *)
Definition startswith (p s : string) : bool := String.prefix p s.

(** ** Dictionaries of counts, sorting, counting *)

(** [d[k] = v] on a dictionary kept in insertion order. *)
Fixpoint dict_set {V : Type} (d : list (string * V)) (k : string) (v : V)
  : list (string * V) :=
  match d with
  | [] => [(k, v)]
  | (k', v') :: d' =>
      if bool_decide (k' = k) then (k, v) :: d' else (k', v') :: dict_set d' k v
  end.

(** One row of a two-column table of labels and counts. *)
Definition Qtd {K : Type} (row : K * nat) : nat := snd row.

Fixpoint insert_sorted {A : Type} (before : A -> A -> bool) (x : A) (l : list A)
  : list A :=
  match l with
  | [] => [x]
  | y :: l' => if before x y then x :: l else y :: insert_sorted before x l'
  end.

(** [sort_values('Qtd', ascending=...)]: rows of equal count keep their
    order. *)
Definition sort_values {K : Type} (ascending : bool) (l : list (K * nat))
  : list (K * nat) :=
  foldr (insert_sorted (fun x y =>
           if ascending then (Qtd x <=? Qtd y)%nat else (Qtd y <=? Qtd x)%nat))
        [] l.

(** [.head(n)] *)
Definition head {A : Type} (n : nat) (l : list A) : list A := take n l.

Fixpoint tally (c : Cell) (acc : list (Cell * nat)) : list (Cell * nat) :=
  match acc with
  | [] => [(c, 1%nat)]
  | (k, n) :: acc' =>
      if bool_decide (k = c) then (k, S n) :: acc' else (k, n) :: tally c acc'
  end.

(** [series.value_counts()]: the distinct values that are not missing, with
    the number of their occurrences, most frequent first. *)
Definition value_counts (s : Series) : list (Cell * nat) :=
  sort_values false (foldl (fun acc c => if isna c then acc else tally c acc) [] s).

(** The counts of a categorical series, one per category and in the order
    of the categories: what [value_counts().sort_index()] gives. *)
Definition category_counts (categories : list string) (s : Series)
  : list (Cell * nat) :=
  (fun lab => (Str lab, length (List.filter (fun c => bool_decide (c = Str lab)) s)))
    <$> categories.

(** [value_counts()] of a categorical series: every category has a row. *)
Definition value_counts_categorical (categories : list string) (s : Series)
  : list (Cell * nat) :=
  sort_values false (category_counts categories s).

(** [.idxmax()]: the label of the first row with the largest count. *)
Fixpoint idxmax (l : list (Cell * nat)) : option Cell :=
  match l with
  | [] => None
  | (k, n) :: l' =>
      match idxmax l' with
      | Some k' =>
          if forallb (fun r => (Qtd r <=? n)%nat) l' then Some k else Some k'
      | None => Some k
      end
  end.

(** ** The page and the objects of a run *)

Inductive ChartKind : Type := Bar | BarH | Pie.

(** A figure of plotly express: its kind, title, and the table it draws. *)
Record Figure : Type := mkFigure {
  fig_kind : ChartKind;
  fig_title : string;
  fig_data : list (Cell * nat)
}.

Inductive MetricValue : Type :=
  | MCount (n : nat)
  | MPercent (q : Q)
  | MLabel (c : Cell).

(** The calls to streamlit, in the order a run makes them. *)
Inductive Widget : Type :=
  | st_set_page_config
  | st_error (msg : string)
  | st_warning (msg : string)
  | st_info (msg : string)
  | st_sidebar_header (text : string)
  | st_sidebar_multiselect (label : string) (options : list Z)
  | st_title (text : string)
  | st_markdown (text : string)
  | st_columns (n : nat)
  | st_metric (label : string) (value : MetricValue)
  | st_plotly_chart (fig : Figure).

(** The state of a run: the tables alive, each under the index that
    references it, and the page written so far. *)
Record Store : Type := mkStore {
  heap : list DataFrame;
  page : list Widget
}.

Definition Script (A : Type) : Type := Store -> Store * Result A.

#[global] Instance Script_ret : MRet Script := fun A a s => (s, Ok a).
#[global] Instance Script_bind : MBind Script := fun A B f m s =>
  match m s with
  | (s', Ok a) => f a s'
  | (s', Raise e) => (s', Raise e)
  end.

Definition emit (w : Widget) : Script unit :=
  fun s => ({| heap := heap s; page := page s ++ [w] |}, Ok tt).

Definition lift {A : Type} (r : Result A) : Script A := fun s => (s, r).

(** A new table object; the result references it. *)
Definition new (df : DataFrame) : Script nat :=
  fun s => ({| heap := heap s ++ [df]; page := page s |}, Ok (length (heap s))).

(** The table a reference stands for. *)
Definition deref (r : nat) : Script DataFrame :=
  fun s => (s, Ok (default (mkDataFrame [] []) (heap s !! r))).

(** [df[col] = series] on the object a reference stands for. *)
Definition assign (r : nat) (col : string) (series : Series) : Script unit :=
  fun s => ({| heap := alter (fun df => setitem df col series) r (heap s);
               page := page s |}, Ok tt).

(** ** [load_data] *)

(** What [pd.read_excel] gives: the table of the file, or the exception it
    raises, by its message. *)
Inductive ReadExcel : Type :=
  | Read (df : DataFrame)
  | ReadError (e : string).

Definition load_data (parse_datetime : Series -> Cell -> option Z)
    (excel : ReadExcel) : Script (option nat) :=
  match excel with
  | ReadError e =>
      emit (st_error ("Erro ao ler o arquivo: " +:+ e));;
      mret None
  | Read df =>
      df ← lift (tratamento parse_datetime df);
      r ← new df;
      mret (Some r)
  end.

(** ** The panel *)

(** [pct_alcool], from the count and the size of the subset. *)
Definition pct_alcool (alcool_sim n : nat) : Q :=
  if (0 <? n)%nat
  then inject_Z (Z.of_nat alcool_sim) / inject_Z (Z.of_nat n) * 100
  else 0.

(** The years of the column, without repetition and in increasing order. *)
Definition anos_disponiveis (ano : Series) : list Z :=
  merge_sort Z.le
    (remove_dups (omap (fun c => match c with Int y => Some y | _ => None end) ano)).

(** The four metrics. *)
Definition kpis (df_filtered : nat) : Script unit :=
  emit (st_columns 4);;
  d ← deref df_filtered;
  emit (st_metric "Total de Casos Notificados" (MCount (len d)));;
  viol_fisica ← lift (count_where d "VIOL_FISIC");
  emit (st_metric "Casos c/ Violência Física" (MCount viol_fisica));;
  alcool_sim ← lift (match get d "AUTOR_ALCO" with
                     | Some alco => Ok (count_present d alco)
                     | None => Raise (KeyError PyFalse)
                     end);
  emit (st_metric "Suspeita de Álcool (Autor)" (MPercent (pct_alcool alcool_sim (len d))));;
  top_faixa ← lift (if empty d then Ok (Str "-")
                    else faixa ← getitem d "FAIXA_ETARIA";
                         mret (default NaN
                                 (idxmax (value_counts_categorical labels faixa))));
  emit (st_metric "Faixa Etária + Atingida" (MLabel top_faixa)).

(** 1. Perfil da Vítima *)
Definition perfil_da_vitima (df_filtered : nat) : Script unit :=
  emit (st_markdown "### 1. Perfil da Vítima");;
  emit (st_columns 2);;
  d ← deref df_filtered;
  faixa ← lift (getitem d "FAIXA_ETARIA");
  emit (st_plotly_chart
          (mkFigure Bar "Distribuição por Faixa Etária" (category_counts labels faixa)));;
  if has_column d "SIT_CONJUG_DESC"
  then emit (st_plotly_chart
               (mkFigure Pie "Situação Conjugal"
                  (value_counts (column d "SIT_CONJUG_DESC"))))
  else mret tt.

Definition cols_violencia : list (string * string) :=
  [("VIOL_FISIC", "Física"); ("VIOL_PSICO", "Psicológica"); ("VIOL_SEXU", "Sexual");
   ("VIOL_TORT", "Tortura"); ("VIOL_FINAN", "Patrimonial"); ("VIOL_NEGLI", "Negligência")].

(** The loop that fills [dados_violencia]. *)
Definition dados_violencia (d : DataFrame) : list (string * nat) :=
  foldl (fun dados '(col, nome) =>
           if has_column d col
           then dict_set dados nome (count_present d (column d col))
           else dados)
        [] cols_violencia.

(** The columns of an indicator family: those that start with the marker,
    one excluded by name. *)
Definition cols_familia (prefix excluded : string) (d : DataFrame) : list string :=
  List.filter (fun c => startswith prefix c && negb (bool_decide (c = excluded)))
    (columns d).

(** The loop that fills [dados_meio] and [dados_vinculo]. *)
Definition dados_familia (prefix : string) (d : DataFrame) (cols : list string)
  : list (string * nat) :=
  foldl (fun dados col =>
           let qtd := count_present d (column d col) in
           if (0 <? qtd)%nat
           then let nome_limpo := title (replace prefix "" col) in
                dict_set dados nome_limpo qtd
           else dados)
        [] cols.

Definition items (dados : list (string * nat)) : list (Cell * nat) :=
  (fun '(k, v) => (Str k, v)) <$> dados.

(** [df_meio] and [df_vinculo]: the family's table, largest counts first,
    cut to its first [n] rows. *)
Definition df_familia (prefix excluded : string) (n : nat) (d : DataFrame)
  : list (Cell * nat) :=
  head n (sort_values false
            (items (dados_familia prefix d (cols_familia prefix excluded d)))).

Definition df_meio : DataFrame -> list (Cell * nat) := df_familia "AG_" "AG_OUTROS" 5.
Definition df_vinculo : DataFrame -> list (Cell * nat) := df_familia "REL_" "REL_TRAB" 7.

(** 2. Características da Violência *)
Definition caracteristicas_da_violencia (df_filtered : nat) : Script unit :=
  emit (st_markdown "### 2. Características da Violência");;
  emit (st_columns 2);;
  d ← deref df_filtered;
  emit (st_plotly_chart
          (mkFigure BarH "Tipos de Violência (Múltipla escolha)"
             (sort_values true (items (dados_violencia d)))));;
  emit (st_plotly_chart (mkFigure Bar "Meios + Utilizados (Top 5)" (df_meio d))).

(** 3. Perfil do Provável Autor *)
Definition perfil_do_autor (df_filtered : nat) : Script unit :=
  emit (st_markdown "### 3. Perfil do Provável Autor");;
  emit (st_columns 3);;
  d ← deref df_filtered;
  emit (st_plotly_chart (mkFigure Bar "Vínculo com a Vítima" (df_vinculo d)));;
  (if has_column d "ALCOOL_DESC"
   then emit (st_plotly_chart
                (mkFigure Pie "Suspeita de Uso de Álcool"
                   (value_counts (column d "ALCOOL_DESC"))))
   else mret tt);;
  if has_column d "AUTOR_SEXO"
  then assign df_filtered "SEXO_AUTOR_DESC"
         (decode map_sexo <$> column d "AUTOR_SEXO");;
       d ← deref df_filtered;
       sexo ← lift (getitem d "SEXO_AUTOR_DESC");
       emit (st_plotly_chart (mkFigure Pie "Sexo do Autor" (value_counts sexo)))
  else mret tt.

(** The branch [if df is not None]: [anos_sel] is what the user has
    selected in the sidebar. *)
Definition painel (df : nat) (anos_sel : list Z) : Script unit :=
  emit (st_sidebar_header "Filtros");;
  d ← deref df;
  ano ← lift (getitem d "ANO_NOTIFICACAO");
  emit (st_sidebar_multiselect "Selecione o Ano" (anos_disponiveis ano));;
  df_filtered ← new (getitem_mask d (isin (Int <$> anos_sel) <$> ano));
  emit (st_title "🛡️ Painel de Monitoramento: Violência na TI Yanomami");;
  emit (st_markdown "**Fonte:** HGR / SINAN | **Recorte:** Mulheres e Meninas (2019-2024)");;
  emit (st_markdown "---");;
  kpis df_filtered;;
  perfil_da_vitima df_filtered;;
  caracteristicas_da_violencia df_filtered;;
  perfil_do_autor df_filtered;;
  emit (st_markdown "---");;
  emit (st_info "Painel Desenvolvido para o Projeto Enfrentamento à violência contra mulheres e crianças Yanomami e Ye'kwana (CoMulheres/CGAJ/DHPS).").

(** The script, from its first line to its last. *)
Definition app (parse_datetime : Series -> Cell -> option Z)
    (excel : ReadExcel) (anos_sel : list Z) : Script unit :=
  emit st_set_page_config;;
  df ← load_data parse_datetime excel;
  match df with
  | Some df => painel df anos_sel
  | None => emit (st_warning "Aguardando carregamento dos dados.")
  end.

Definition start : Store := {| heap := []; page := [] |}.

(** ** Vocabulary of the properties *)

(** [writes W df df']: [df'] has the rows of [df], in the same number, keeps
    its columns, and differs from it on the columns of [W] at most. *)
Definition writes (W : list string) (df df' : DataFrame) : Prop :=
  len df' = len df /\
  (forall c, has_column df c = true -> has_column df' c = true) /\
  (forall c, c ∉ W -> column df' c = column df c).

(** The derived columns and the columns the preparation overwrites. *)
Definition written : list string :=
  ["DT_NOTIFIC"; "DT_NASC"; "DT_OCOR"; "ANO_NOTIFICACAO"; "IDADE_CALCULADA";
   "FAIXA_ETARIA"; "ALCOOL_DESC"; "SIT_CONJUG_DESC"].

(** The table after the statements of [load_data] that follow the dates,
    when none of them raises. *)
Definition derivados (d1 : DataFrame) : DataFrame :=
  let d2 := setitem d1 "ANO_NOTIFICACAO" (dt_year <$> column d1 "DT_NOTIFIC") in
  let d3 := setitem d2 "IDADE_CALCULADA"
              (floordiv_365_25 <$>
                 (dt_days <$> zip_with sub_datetime (column d2 "DT_NOTIFIC")
                                                    (column d2 "DT_NASC"))) in
  let d4 := setitem d3 "FAIXA_ETARIA" (cut bins labels <$> column d3 "IDADE_CALCULADA") in
  mapeamento_conjugal (mapeamento_alcool d4).

(** The table of a preparation that returned, the empty table otherwise. *)
Definition returned (r : Result DataFrame) : DataFrame :=
  match r with Ok df => df | Raise _ => mkDataFrame [] [] end.

(** The encodings of the female sex that the population filter accepts. *)
Definition female_codes : list Cell := [Str "F"; Str "2"; Int 2].


(** The widgets that show data. *)
Definition is_chart_or_metric (w : Widget) : bool :=
  match w with
  | st_metric _ _ | st_plotly_chart _ => true
  | _ => false
  end.

(** A statement that writes on the page at most: it leaves every table
    object as it is, whether it returns or raises. *)
Definition only_writes {A : Type} (m : Script A) : Prop :=
  forall s, heap (m s).1 = heap s.

(** The filtered table of a run: the rows of the selected years. *)
Definition filtrado (d : DataFrame) (anos_sel : list Z) : DataFrame :=
  getitem_mask d (isin (Int <$> anos_sel) <$> column d "ANO_NOTIFICACAO").

(** The filtered table after the last chart: with the decoded sex of the
    author, when the column [AUTOR_SEXO] is there. *)
Definition com_sexo_autor (sub : DataFrame) : DataFrame :=
  if has_column sub "AUTOR_SEXO"
  then setitem sub "SEXO_AUTOR_DESC" (decode map_sexo <$> column sub "AUTOR_SEXO")
  else sub.

(** The label of the fourth metric. *)
Definition top_faixa (d : DataFrame) : Cell :=
  if empty d then Str "-"
  else default NaN
         (idxmax (value_counts_categorical labels (column d "FAIXA_ETARIA"))).

(** The four metrics of a table that has the three columns they read. *)
Definition metricas (d : DataFrame) : list Widget :=
  [st_columns 4;
   st_metric "Total de Casos Notificados" (MCount (len d));
   st_metric "Casos c/ Violência Física"
     (MCount (count_present d (column d "VIOL_FISIC")));
   st_metric "Suspeita de Álcool (Autor)"
     (MPercent (pct_alcool (count_present d (column d "AUTOR_ALCO")) (len d)));
   st_metric "Faixa Etária + Atingida" (MLabel (top_faixa d))].

(** Rows in the order of a top-N table: no count larger than one before
    it. *)
Definition falling {K : Type} (x y : K * nat) : Prop := (Qtd y <= Qtd x)%nat.

(** A string without its first [n] characters. *)
Fixpoint drop_string (n : nat) (s : string) : string :=
  match n, s with
  | S n', String _ s' => drop_string n' s'
  | _, _ => s
  end.

(** What the specification says of a label: the family prefix is
    stripped. *)
Definition strip_prefix (prefix s : string) : string :=
  if startswith prefix s then drop_string (String.length prefix) s else s.

(** [p in s] *)
Fixpoint contains (p s : string) : bool :=
  String.prefix p s ||
  match s with
  | EmptyString => false
  | String _ s' => contains p s'
  end.

(** The years of a column: its cells that are numbers. *)
Definition anos (ano : Series) : list Z :=
  omap (fun c => match c with Int y => Some y | _ => None end) ano.

(** Whether the year of the day number of a date is the year of the date. *)
Definition year_ok (y m d : Z) : bool :=
  year_from_days (days_from_civil y m d) =? y.

(** A cell of a datetime column: a timestamp, or missing. *)
Definition is_date (c : Cell) : bool :=
  match c with Timestamp _ | NaN => true | _ => false end.

(** The number of cells of a series that hold a value. *)
Definition ocorrencias (k : Cell) (s : Series) : nat :=
  length (List.filter (fun c => bool_decide (c = k)) s).

(** The cells of a series that are not missing. *)
Definition dropna (s : Series) : Series :=
  List.filter (fun c => negb (isna c)) s.

(** The sum of the counts of a table of labels and counts. *)
Definition total {K : Type} (l : list (K * nat)) : nat := sum_list (Qtd <$> l).

(** Rows in increasing order of count. *)
Definition rising {K : Type} (x y : K * nat) : Prop := (Qtd x <= Qtd y)%nat.

(** The count under a label, zero when there is none. *)
Fixpoint conta {K : Type} `{EqDecision K} (l : list (K * nat)) (k : K) : nat :=
  match l with
  | [] => 0
  | (k', n) :: l' => (if bool_decide (k' = k) then n else 0) + conta l' k
  end.

(** The bars of the chart of the types of violence. *)
Definition df_viol_tipo (d : DataFrame) : list (Cell * nat) :=
  sort_values true (items (dados_violencia d)).

(** The table of an indicator family before it is cut to its first rows:
    the entries of the dictionary, largest counts first. *)
Definition tabela_familia (prefix excluded : string) (d : DataFrame)
  : list (Cell * nat) :=
  sort_values false (items (dados_familia prefix d (cols_familia prefix excluded d))).

(** [extends n df df']: the columns of [df'] are those of [df], in their
    order, followed by [n] new ones at most, and none of them twice when
    none of [df] is. *)
Definition extends (n : nat) (df df' : DataFrame) : Prop :=
  columns df `prefix_of` columns df' /\
  (NoDup (columns df) -> NoDup (columns df')) /\
  (length (columns df') <= length (columns df) + n)%nat.

(** ** Example tables *)

(** A table from its header and the cells of its rows. *)
Definition table (header : list string) (cells : list (list Cell)) : DataFrame :=
  {| columns := header; rows := (fun r => list_to_map (zip header r)) <$> cells |}.

(** A parser for runs whose date cells are all timestamps or missing. *)
Definition no_parse : Series -> Cell -> option Z := fun _ _ => None.

(** Three notifications: a girl of nine, a man, and a woman whose birth
    date is missing and whose marital status is no code. *)
Definition notificacoes : DataFrame :=
  table ["CS_SEXO"; "DT_NOTIFIC"; "DT_NASC"; "AUTOR_ALCO"; "SIT_CONJUG"]
    [[Int 2; date 2021 3 10; date 2011 3 11; Int 9; Int 1];
     [Int 1; date 2020 5 2; date 1990 1 1; Int 1; Int 2];
     [Str "F"; date 2019 7 1; NaN; Int 1; Str "?"]].

(** The notification of the scenario: sex code 2, notified on 2021-03-10,
    born on 2011-03-11. *)
Definition menina : DataFrame :=
  table ["CS_SEXO"; "DT_NOTIFIC"; "DT_NASC"]
    [[Int 2; date 2021 3 10; date 2011 3 11]].

(** A girl notified on 2021-03-10, born on 2020-12-01. *)
Definition recem_nascida : DataFrame :=
  table ["CS_SEXO"; "DT_NOTIFIC"; "DT_NASC"]
    [[Int 2; date 2021 3 10; date 2020 12 1]].

(** A notification without its notification date. *)
Definition sem_dt_notific : DataFrame :=
  table ["CS_SEXO"; "DT_NASC"] [[Int 2; date 2011 3 11]].

(** A notification without its birth date. *)
Definition sem_dt_nasc : DataFrame :=
  table ["CS_SEXO"; "DT_NOTIFIC"] [[Int 2; date 2021 3 10]].

(** A notification with both dates and the alcohol code, without the
    indicator of physical violence. *)
Definition sem_viol_fisic : DataFrame :=
  table ["CS_SEXO"; "DT_NOTIFIC"; "DT_NASC"; "AUTOR_ALCO"]
    [[Int 2; date 2021 3 10; date 2011 3 11; Int 1]].

(** A notification with both dates and the indicator of physical violence,
    without the alcohol code. *)
Definition sem_autor_alco : DataFrame :=
  table ["CS_SEXO"; "DT_NOTIFIC"; "DT_NASC"; "VIOL_FISIC"]
    [[Int 2; date 2021 3 10; date 2011 3 11; Int 1]].

(** Two notifications of 2021 with the sex of the author. *)
Definition com_autor : DataFrame :=
  table ["CS_SEXO"; "DT_NOTIFIC"; "DT_NASC"; "VIOL_FISIC"; "AUTOR_ALCO"; "AUTOR_SEXO"]
    [[Int 2; date 2021 3 10; date 2011 3 11; Int 1; Int 1; Int 1];
     [Int 2; date 2021 6 1; date 1990 1 1; Int 2; Int 9; Int 7]].

(** The store after [load_data] has returned the table of [com_autor]. *)
Definition carregado : Store :=
  {| heap := [returned (tratamento no_parse com_autor)]; page := [st_set_page_config] |}.

(** A table with a column of the family of means whose name holds the
    marker twice. *)
Definition marcador_repetido : DataFrame :=
  table ["CS_SEXO"; "AG_FOGO"; "AG_PAG_FOGO"]
    [[Int 2; Int 1; Int 1]; [Int 2; Int 1; Int 2]].

(** A table with a timestamp, a missing date and a text in its date
    columns. *)
Definition datas_mistas : DataFrame :=
  table ["CS_SEXO"; "DT_NOTIFIC"; "DT_NASC"]
    [[Int 2; date 2021 3 10; Str "11/03/2011"];
     [Int 2; NaN; date 1990 1 1];
     [Int 2; Str "sem data"; NaN]].

(** Two notifications, both with alcohol code 1. *)
Definition alcool_em_todas : DataFrame :=
  table ["CS_SEXO"; "AUTOR_ALCO"] [[Int 2; Int 1]; [Str "F"; Int 1]].

(** * Properties *)

(** ** Lists, rows and columns *)

Lemma select_fmap {A : Type} (f : A -> bool) (l : list A) :
  select (f <$> l) l = List.filter f l.
Proof.
  induction l as [|x l IH]; [done|].
  cbn. destruct (f x); by rewrite IH.
Qed.

Lemma cell_insert_eq (col : string) (c : Cell) (r : gmap string Cell) :
  cell col (<[col := c]> r) = c.
Proof. unfold cell. by rewrite lookup_insert_eq. Qed.

Lemma cell_insert_ne (col col' : string) (c : Cell) (r : gmap string Cell) :
  col <> col' -> cell col' (<[col := c]> r) = cell col' r.
Proof. intros Hne. unfold cell. by rewrite lookup_insert_ne. Qed.

Lemma column_setitem_eq (df : DataFrame) (col : string) (s : Series) :
  length s = len df -> column (setitem df col s) col = s.
Proof.
  unfold column, setitem, len. cbn. generalize (rows df). clear df.
  induction s as [|c s IH]; intros [|r rs] Hlen; cbn in *; try done.
  rewrite cell_insert_eq. f_equal. apply IH. lia.
Qed.

Lemma column_setitem_ne (df : DataFrame) (col col' : string) (s : Series) :
  length s = len df -> col <> col' ->
  column (setitem df col s) col' = column df col'.
Proof.
  unfold column, setitem, len. cbn. generalize (rows df). clear df.
  induction s as [|c s IH]; intros [|r rs] Hlen Hne; cbn in *; try done.
  rewrite cell_insert_ne by done. f_equal. apply IH; [lia|done].
Qed.

Lemma len_setitem (df : DataFrame) (col : string) (s : Series) :
  length s = len df -> len (setitem df col s) = len df.
Proof.
  unfold len, setitem. cbn. intros Hlen.
  rewrite length_zip_with. lia.
Qed.

Lemma length_column (df : DataFrame) (col : string) :
  length (column df col) = len df.
Proof. unfold column, len. by rewrite length_fmap. Qed.

Lemma has_column_setitem (df : DataFrame) (col col' : string) (s : Series) :
  has_column (setitem df col s) col'
  = has_column df col' || bool_decide (col' = col).
Proof.
  unfold setitem, has_column at 1. cbn [columns].
  destruct (has_column df col) eqn:Hin; unfold has_column in *.
  - apply bool_decide_eq_true in Hin.
    destruct (bool_decide (col' ∈ columns df)) eqn:Hin'; [done|].
    apply bool_decide_eq_false in Hin'. cbn.
    symmetry. apply bool_decide_eq_false. intros ->. contradiction.
  - apply eq_true_iff_eq. rewrite orb_true_iff, !bool_decide_eq_true.
    rewrite elem_of_app, list_elem_of_singleton. done.
Qed.

(** ** Age brackets *)

Lemma cut_bins_labels (a : Z) :
  cut bins labels (Int a) =
    if (0 <? a) && (a <=? 9) then Str "Criança (0-9)"
    else if (9 <? a) && (a <=? 19) then Str "Adolescente (10-19)"
    else if (19 <? a) && (a <=? 24) then Str "Jovem (20-24)"
    else if (24 <? a) && (a <=? 59) then Str "Adulta (25-59)"
    else if (59 <? a) && (a <=? 120) then Str "Idosa (60+)"
    else NaN.
Proof.
  unfold cut, bins, labels. cbn [cut_value].
  repeat (destruct (_ && _); [done|]). done.
Qed.

Ltac cut_cases a :=
  rewrite (cut_bins_labels a);
  repeat (match goal with
          | |- context [?x <? ?y] => destruct (Z.ltb_spec x y)
          | |- context [?x <=? ?y] => destruct (Z.leb_spec x y)
          end; cbn [andb]; try lia).


(** ** What a step of the preparation writes *)

Lemma writes_refl (W : list string) (df : DataFrame) : writes W df df.
Proof. by split_and!. Qed.

Lemma writes_trans (W1 W2 : list string) (df1 df2 df3 : DataFrame) :
  writes W1 df1 df2 -> writes W2 df2 df3 -> writes (W1 ++ W2) df1 df3.
Proof.
  intros (Hl1 & Hc1 & Ho1) (Hl2 & Hc2 & Ho2). split_and!.
  - congruence.
  - auto.
  - intros c Hc. rewrite not_elem_of_app in Hc. destruct Hc.
    rewrite Ho2, Ho1; done.
Qed.

Lemma writes_cons (c : string) (W : list string) (df1 df2 df3 : DataFrame) :
  writes [c] df1 df2 -> writes W df2 df3 -> writes (c :: W) df1 df3.
Proof. apply (writes_trans [c] W). Qed.

Lemma writes_weaken (W W' : list string) (df df' : DataFrame) :
  W ⊆ W' -> writes W df df' -> writes W' df df'.
Proof.
  intros Hsub (Hl & Hc & Ho). split_and!; [done..|].
  intros c Hc'. apply Ho. intros Hin. apply Hc', Hsub, Hin.
Qed.

Lemma setitem_writes (df : DataFrame) (col : string) (s : Series) :
  length s = len df -> writes [col] df (setitem df col s).
Proof.
  intros Hlen. split_and!.
  - by apply len_setitem.
  - intros c Hc. rewrite has_column_setitem, Hc. done.
  - intros c Hc. apply column_setitem_ne; [done|].
    intros ->. apply Hc. by apply list_elem_of_singleton.
Qed.

Ltac solve_len :=
  rewrite ?length_fmap, ?length_zip_with, ?length_fmap, ?length_column; lia.

Section TratamentoFacts.

Variable parse_datetime : Series -> Cell -> option Z.

Lemma length_to_datetime (s : Series) :
  length (to_datetime parse_datetime s) = length s.
Proof. unfold to_datetime. by rewrite length_fmap. Qed.

Lemma datas_step_writes (df : DataFrame) (col : string) :
  writes [col] df (datas_step parse_datetime df col).
Proof.
  unfold datas_step. destruct (has_column df col); [|apply writes_refl].
  apply setitem_writes. rewrite length_to_datetime. apply length_column.
Qed.

Lemma datas_writes (df : DataFrame) :
  writes cols_data df (datas parse_datetime df).
Proof.
  unfold datas, cols_data. cbn [foldl].
  apply (writes_cons _ _ _ (datas_step parse_datetime df "DT_NOTIFIC"));
    [apply datas_step_writes|].
  eapply writes_cons; apply datas_step_writes.
Qed.

Lemma filtro_sexo_feminino_rows (df : DataFrame) :
  rows (filtro_sexo_feminino df) =
    if has_column df "CS_SEXO"
    then List.filter (fun r => isin [Str "F"; Str "2"; Int 2] (cell "CS_SEXO" r)) (rows df)
    else rows df.
Proof.
  unfold filtro_sexo_feminino. destruct (has_column df "CS_SEXO"); [|done].
  unfold getitem_mask, column. cbn [rows].
  rewrite <- list_fmap_compose. apply select_fmap.
Qed.

Lemma filtro_sexo_feminino_columns (df : DataFrame) :
  columns (filtro_sexo_feminino df) = columns df.
Proof. unfold filtro_sexo_feminino. by destruct (has_column df "CS_SEXO"). Qed.

Lemma getitem_Ok (df : DataFrame) (col : string) (s : Series) :
  getitem df col = Ok s -> has_column df col = true /\ s = column df col.
Proof. unfold getitem. destruct (has_column df col); naive_solver. Qed.

Lemma getitem_has_column (df : DataFrame) (col : string) :
  has_column df col = true -> getitem df col = Ok (column df col).
Proof. unfold getitem. by intros ->. Qed.

Lemma mapeamento_alcool_writes (df : DataFrame) :
  writes ["ALCOOL_DESC"] df (mapeamento_alcool df).
Proof.
  unfold mapeamento_alcool. destruct (has_column df "AUTOR_ALCO"); [|apply writes_refl].
  apply setitem_writes. solve_len.
Qed.

Lemma mapeamento_conjugal_writes (df : DataFrame) :
  writes ["SIT_CONJUG_DESC"] df (mapeamento_conjugal df).
Proof.
  unfold mapeamento_conjugal. destruct (has_column df "SIT_CONJUG"); [|apply writes_refl].
  apply setitem_writes. solve_len.
Qed.

Lemma getitem_no_column (df : DataFrame) (col : string) :
  has_column df col = false -> getitem df col = Raise (KeyError (Col col)).
Proof. unfold getitem. by intros ->. Qed.

Lemma Ok_inj {A : Type} (a b : A) : Ok a = Ok b -> a = b.
Proof. by intros [= ->]. Qed.

Lemma bind_Ok {A B : Type} (a : A) (f : A -> Result B) : (Ok a ≫= f) = f a.
Proof. reflexivity. Qed.

Lemma bind_mret {A B : Type} (a : A) (f : A -> Result B) : (mret a ≫= f) = f a.
Proof. reflexivity. Qed.

Lemma bind_Raise {A B : Type} (e : Exception) (f : A -> Result B) :
  (Raise e ≫= f) = Raise e.
Proof. reflexivity. Qed.

(** The preparation raises exactly when one of the two date columns is
    missing, and otherwise returns the filtered table after the
    assignments. *)
Lemma tratamento_eq (raw : DataFrame) :
  tratamento parse_datetime raw =
    let d1 := datas parse_datetime (filtro_sexo_feminino raw) in
    if has_column d1 "DT_NOTIFIC"
    then if has_column d1 "DT_NASC"
         then Ok (derivados d1)
         else Raise (KeyError (Col "DT_NASC"))
    else Raise (KeyError (Col "DT_NOTIFIC")).
Proof.
  unfold tratamento, derivados. cbn zeta.
  set (d1 := datas parse_datetime (filtro_sexo_feminino raw)).
  unfold ano_notificacao.
  destruct (has_column d1 "DT_NOTIFIC") eqn:H1;
    [|by rewrite (getitem_no_column _ _ H1)].
  rewrite (getitem_has_column _ _ H1), bind_Ok, bind_mret.
  unfold idade_calculada.
  rewrite (getitem_has_column _ "DT_NOTIFIC")
    by (by rewrite has_column_setitem, H1).
  rewrite bind_Ok.
  destruct (has_column d1 "DT_NASC") eqn:H2.
  - rewrite (getitem_has_column _ "DT_NASC")
      by (by rewrite has_column_setitem, H2).
    rewrite bind_Ok, bind_mret. unfold faixa_etaria.
    rewrite (getitem_has_column _ "IDADE_CALCULADA")
      by (by rewrite has_column_setitem, orb_true_r).
    by rewrite bind_Ok, bind_mret.
  - rewrite (getitem_no_column _ "DT_NASC"); [done|].
    rewrite has_column_setitem, H2. done.
Qed.

Lemma tratamento_Ok (raw df : DataFrame) :
  tratamento parse_datetime raw = Ok df ->
  let d1 := datas parse_datetime (filtro_sexo_feminino raw) in
  has_column d1 "DT_NOTIFIC" = true /\ has_column d1 "DT_NASC" = true /\
  df = derivados d1.
Proof.
  rewrite tratamento_eq. cbn zeta.
  destruct (has_column _ "DT_NOTIFIC"); [|discriminate].
  destruct (has_column _ "DT_NASC"); [|discriminate].
  intros Hok%Ok_inj. auto.
Qed.

Lemma derivados_writes (d1 : DataFrame) :
  writes ["ANO_NOTIFICACAO"; "IDADE_CALCULADA"; "FAIXA_ETARIA"; "ALCOOL_DESC";
          "SIT_CONJUG_DESC"] d1 (derivados d1).
Proof.
  unfold derivados. cbn zeta.
  set (d2 := setitem d1 "ANO_NOTIFICACAO" _).
  set (d3 := setitem d2 "IDADE_CALCULADA" _).
  set (d4 := setitem d3 "FAIXA_ETARIA" _).
  apply (writes_cons _ _ _ d2); [apply setitem_writes; solve_len|].
  apply (writes_cons _ _ _ d3); [apply setitem_writes; solve_len|].
  apply (writes_cons _ _ _ d4); [apply setitem_writes; solve_len|].
  apply (writes_cons _ _ _ (mapeamento_alcool d4)); [apply mapeamento_alcool_writes|].
  apply mapeamento_conjugal_writes.
Qed.

Lemma tratamento_writes (raw df : DataFrame) :
  tratamento parse_datetime raw = Ok df ->
  writes written (filtro_sexo_feminino raw) df.
Proof.
  intros (_ & _ & ->)%tratamento_Ok.
  change written with (cols_data ++ ["ANO_NOTIFICACAO"; "IDADE_CALCULADA";
                                     "FAIXA_ETARIA"; "ALCOOL_DESC"; "SIT_CONJUG_DESC"]).
  eapply writes_trans; [apply datas_writes|apply derivados_writes].
Qed.

(** The columns of the prepared table that are computed from others. *)
Lemma derivados_columns (d1 : DataFrame) :
  let df := derivados d1 in
  column df "IDADE_CALCULADA" =
    floordiv_365_25 <$>
      (dt_days <$> zip_with sub_datetime (column df "DT_NOTIFIC") (column df "DT_NASC"))
  /\ column df "FAIXA_ETARIA" = cut bins labels <$> column df "IDADE_CALCULADA"
  /\ column df "ANO_NOTIFICACAO" = dt_year <$> column df "DT_NOTIFIC"
  /\ (has_column d1 "AUTOR_ALCO" = true ->
      column df "ALCOOL_DESC" = decode map_sinan <$> column df "AUTOR_ALCO")
  /\ (has_column d1 "SIT_CONJUG" = true ->
      column df "SIT_CONJUG_DESC" = decode map_conjugal <$> column df "SIT_CONJUG").
Proof.
  unfold derivados. cbn zeta.
  set (d2 := setitem d1 "ANO_NOTIFICACAO" _).
  set (d3 := setitem d2 "IDADE_CALCULADA" _).
  set (d4 := setitem d3 "FAIXA_ETARIA" _).
  destruct (mapeamento_alcool_writes d4) as (L5 & C5 & O5).
  destruct (mapeamento_conjugal_writes (mapeamento_alcool d4)) as (L6 & C6 & O6).
  assert (forall c, c <> "ALCOOL_DESC" -> c <> "SIT_CONJUG_DESC" ->
            column (mapeamento_conjugal (mapeamento_alcool d4)) c = column d4 c)
    as Hlate.
  { intros c H1 H2. rewrite O6, O5; [done|..];
      rewrite list_elem_of_singleton; done. }
  assert (len d2 = len d1) as L2 by (apply len_setitem; solve_len).
  assert (len d3 = len d1) as L3 by (unfold d3; rewrite len_setitem; solve_len).
  assert (has_column d4 "AUTOR_ALCO" = has_column d1 "AUTOR_ALCO") as HA.
  { unfold d4, d3, d2. by rewrite !has_column_setitem, !orb_false_r. }
  assert (has_column (mapeamento_alcool d4) "SIT_CONJUG" = has_column d1 "SIT_CONJUG")
    as HS.
  { unfold mapeamento_alcool. rewrite HA.
    destruct (has_column d1 "AUTOR_ALCO"); unfold d4, d3, d2;
      by rewrite !has_column_setitem, !orb_false_r. }
  split_and!.
  - rewrite !Hlate by done. unfold d4.
    rewrite !column_setitem_ne by (done || solve_len).
    unfold d3 at 1. rewrite column_setitem_eq by solve_len.
    unfold d3. rewrite !(column_setitem_ne d2) by (done || solve_len). done.
  - rewrite !Hlate by done. unfold d4.
    rewrite column_setitem_eq by solve_len.
    by rewrite column_setitem_ne by (done || solve_len).
  - rewrite !Hlate by done. unfold d4, d3.
    rewrite !column_setitem_ne by (done || solve_len || (rewrite len_setitem; solve_len)).
    unfold d2. rewrite column_setitem_eq by solve_len.
    by rewrite column_setitem_ne by (done || solve_len).
  - intros Halco. rewrite !O6 by (rewrite list_elem_of_singleton; done).
    unfold mapeamento_alcool. rewrite HA, Halco.
    rewrite column_setitem_eq by solve_len.
    by rewrite column_setitem_ne by (done || solve_len).
  - intros Hconj. unfold mapeamento_conjugal. rewrite HS, Hconj.
    rewrite column_setitem_eq by solve_len.
    by rewrite column_setitem_ne by (done || solve_len).
Qed.

End TratamentoFacts.

(** Decides a closed decidable proposition by evaluation. *)
Ltac by_compute := apply (bool_decide_unpack _); vm_compute; exact I.

Lemma fmap_eq_Forall {A B : Type} (f g : A -> B) (l : list A) :
  f <$> l = g <$> l -> Forall (fun x => f x = g x) l.
Proof.
  induction l as [|x l IH]; cbn; intros H; [constructor|].
  injection H as Hx Hl. constructor; auto.
Qed.

(** ** The population filter *)

(** C6. After the population filter every row of the enriched table has
    one of the female codes ['F'], ['2'] and [2] as its sex code, the
    enriched rows being the rows of the source with such a code, in their
    order, so that a row with sex code 1 is not among them; and with no
    sex-code column in the source the filter is skipped and every row
    passes. *)
Theorem population_filter (parse_datetime : Series -> Cell -> option Z)
    (raw df : DataFrame) :
  tratamento parse_datetime raw = Ok df ->
  (has_column raw "CS_SEXO" = true ->
     Forall (fun r => cell "CS_SEXO" r ∈ female_codes) (rows df) /\
     Forall (fun r => cell "CS_SEXO" r <> Int 1 /\ cell "CS_SEXO" r <> Str "1") (rows df) /\
     column df "CS_SEXO" =
       List.filter (isin female_codes) (column raw "CS_SEXO") /\
     forall c, c ∉ written ->
       column df c =
         cell c <$> List.filter (fun r => isin female_codes (cell "CS_SEXO" r)) (rows raw)) /\
  (has_column raw "CS_SEXO" = false ->
     len df = len raw /\
     forall c, c ∉ written -> column df c = column raw c).
Proof.
  intros Hok. destruct (tratamento_writes _ _ _ Hok) as (Hlen & _ & Hother).
  pose proof (filtro_sexo_feminino_rows raw) as Hrows.
  assert ("CS_SEXO" ∉ written) as Hsexo by by_compute.
  split; intros Hcol; rewrite Hcol in Hrows.
  - assert (column df "CS_SEXO" =
              List.filter (isin female_codes) (column raw "CS_SEXO")) as Hcolumn.
    { rewrite Hother by done. unfold column. rewrite Hrows.
      generalize (rows raw). intros l. induction l as [|r l IH]; [done|].
      cbn. unfold female_codes in *.
      destruct (isin _ (cell "CS_SEXO" r)); cbn; by rewrite IH. }
    assert (Forall (fun c => c ∈ female_codes) (column df "CS_SEXO")) as Hall.
    { rewrite Hcolumn. apply Forall_forall. intros c Hc.
      apply list_elem_of_In, filter_In in Hc as [_ Hc].
      by apply bool_decide_eq_true in Hc. }
    unfold column in Hall. apply Forall_fmap in Hall.
    split_and!; [done| |done|].
    + eapply Forall_impl; [exact Hall|]. cbn. intros r Hr.
      split; intros Heq; rewrite Heq in Hr; revert Hr; by_compute.
    + intros c Hc. rewrite Hother by done. unfold column. by rewrite Hrows.
  - split.
    + rewrite Hlen. unfold len. by rewrite Hrows.
    + intros c Hc. rewrite Hother by done. unfold column. by rewrite Hrows.
Qed.

Lemma population_filter_witness :
  Forall (fun r => cell "CS_SEXO" r ∈ female_codes)
    (rows (returned (tratamento no_parse notificacoes))) /\
  column (returned (tratamento no_parse notificacoes)) "CS_SEXO" = [Int 2; Str "F"].
Proof.
  assert (tratamento no_parse notificacoes
          = Ok (returned (tratamento no_parse notificacoes))) as Hok
    by (vm_compute; reflexivity).
  destruct (population_filter _ _ _ Hok) as [Hyes _].
  destruct (Hyes eq_refl) as (Hall & _ & Hcolumn & _).
  split; [exact Hall|]. rewrite Hcolumn. vm_compute. reflexivity.
Defined.

(** ** The derived age *)

Lemma floordiv_365_25_floor (d : Z) :
  exists a, floordiv_365_25 (Int d) = Int a /\
    (inject_Z a <= inject_Z d / 365.25 < inject_Z a + 1)%Q.
Proof.
  eexists. split; [reflexivity|]. split.
  - apply Qfloor_le.
  - rewrite <- (inject_Z_plus _ 1). apply Qlt_floor.
Qed.

Lemma idade_rows (df : DataFrame) :
  column df "IDADE_CALCULADA" =
    floordiv_365_25 <$>
      (dt_days <$> zip_with sub_datetime (column df "DT_NOTIFIC") (column df "DT_NASC")) ->
  Forall (fun r =>
    (forall n b,
       cell "DT_NOTIFIC" r = Timestamp n -> cell "DT_NASC" r = Timestamp b ->
       exists a, cell "IDADE_CALCULADA" r = Int a /\
         (inject_Z a <= inject_Z ((n - b) / NS_PER_DAY) / 365.25
          < inject_Z a + 1)%Q) /\
    (cell "DT_NOTIFIC" r = NaN \/ cell "DT_NASC" r = NaN ->
       cell "IDADE_CALCULADA" r = NaN))
    (rows df).
Proof.
  unfold column. generalize (rows df). intros l Hidade.
  rewrite zip_with_fmap_l, zip_with_fmap_r, zip_with_diag in Hidade.
  rewrite <- !list_fmap_compose in Hidade.
  apply fmap_eq_Forall in Hidade.
  eapply Forall_impl; [exact Hidade|]. intros r Hr. cbv beta in Hr.
  rewrite Hr. unfold compose. split.
  - intros n b -> ->. apply floordiv_365_25_floor.
  - intros [-> | ->]; [done|]. by destruct (cell "DT_NOTIFIC" r).
Qed.

(** C4. In every row of the enriched table where the notification date and
    the birth date are both defined, the age is the floor of the whole days
    between them divided by 365.25; where one of the dates is missing the
    age is missing.  The row notified on 2021-03-10 and born on 2011-03-11
    gets age 9 and the bracket of children. *)
Theorem idade_calculada_floor :
  (forall (parse_datetime : Series -> Cell -> option Z) (raw df : DataFrame),
     tratamento parse_datetime raw = Ok df ->
     Forall (fun r =>
       (forall n b,
          cell "DT_NOTIFIC" r = Timestamp n -> cell "DT_NASC" r = Timestamp b ->
          exists a, cell "IDADE_CALCULADA" r = Int a /\
            (inject_Z a <= inject_Z ((n - b) / NS_PER_DAY) / 365.25
             < inject_Z a + 1)%Q) /\
       (cell "DT_NOTIFIC" r = NaN \/ cell "DT_NASC" r = NaN ->
          cell "IDADE_CALCULADA" r = NaN))
       (rows df)) /\
  (forall parse_datetime : Series -> Cell -> option Z,
     let df := returned (tratamento parse_datetime menina) in
     column df "CS_SEXO" = [Int 2] /\
     column df "IDADE_CALCULADA" = [Int 9] /\
     column df "FAIXA_ETARIA" = [Str "Criança (0-9)"]).
Proof.
  split.
  - intros parse raw df (_ & _ & ->)%tratamento_Ok.
    apply idade_rows.
    apply (derivados_columns (datas parse (filtro_sexo_feminino raw))).
  - intros parse. cbv zeta. split_and!; vm_compute; reflexivity.
Qed.

Lemma idade_calculada_floor_witness :
  Forall (fun r => cell "DT_NASC" r = NaN -> cell "IDADE_CALCULADA" r = NaN)
    (rows (returned (tratamento no_parse notificacoes))).
Proof.
  assert (tratamento no_parse notificacoes
          = Ok (returned (tratamento no_parse notificacoes))) as Hok
    by (vm_compute; reflexivity).
  eapply Forall_impl; [exact (proj1 idade_calculada_floor _ _ _ Hok)|].
  cbn. intros r [_ Hr] Hnasc. apply Hr. by right.
Defined.

(** ** The age of a newborn *)

(** C2. The brackets do not cover the age domain [0,120]: age 0 gets no
    bracket, although the first label reads 0-9.  The girl of less than a
    year has age 0 and a missing bracket in the enriched table. *)
Theorem age_zero_has_no_bracket :
  cut bins labels (Int 0) = NaN /\
  column (returned (tratamento no_parse recem_nascida)) "IDADE_CALCULADA" = [Int 0] /\
  column (returned (tratamento no_parse recem_nascida)) "FAIXA_ETARIA" = [NaN].
Proof. split_and!; vm_compute; reflexivity. Qed.

(** The brackets cover the ages from 1 to 120, each with one label of the
    list, and no other age. *)
Lemma faixa_etaria_domain (a : Z) :
  (0 < a <= 120 -> exists lab, lab ∈ labels /\ cut bins labels (Int a) = Str lab) /\
  (a <= 0 \/ 120 < a -> cut bins labels (Int a) = NaN).
Proof.
  split; intros Ha; cut_cases a; try done;
    eexists; (split; [|reflexivity]); by_compute.
Qed.

Lemma faixa_etaria_domain_witness :
  exists lab, lab ∈ labels /\ cut bins labels (Int 35) = Str lab.
Proof. apply (proj1 (faixa_etaria_domain 35)). lia. Defined.

(** ** Decoding *)



(** ** A load that fails *)

(** C10. When the spreadsheet cannot be read, [load_data] reports the cause
    in an error message and returns no table, no table object exists, and
    the page shows the notice that data is awaited and no chart or
    metric. *)
Theorem load_failure_unavailable
    (parse_datetime : Series -> Cell -> option Z) (e : string)
    (anos_sel : list Z) (s : Store) :
  load_data parse_datetime (ReadError e) s
    = ({| heap := heap s;
          page := page s ++ [st_error ("Erro ao ler o arquivo: " +:+ e)] |},
       Ok None) /\
  app parse_datetime (ReadError e) anos_sel s
    = ({| heap := heap s;
          page := page s ++ [st_set_page_config]
                    ++ [st_error ("Erro ao ler o arquivo: " +:+ e)]
                    ++ [st_warning "Aguardando carregamento dos dados."] |},
       Ok tt) /\
  (let s' := (app parse_datetime (ReadError e) anos_sel start).1 in
   heap s' = [] /\
   forallb (fun w => negb (is_chart_or_metric w)) (page s') = true).
Proof.
  split_and!.
  - reflexivity.
  - unfold app, load_data, emit, mbind, Script_bind, mret, Script_ret.
    cbn [heap page]. by rewrite <- !app_assoc.
  - cbv zeta. split; reflexivity.
Qed.

(** ** Columns that are missing *)

(** C1. Steps after the load do raise on a table that lacks an optional
    column: the preparation on a table without notification date or without
    birth date, the metric of physical violence on a table without
    [VIOL_FISIC], and the alcohol metric on a table without [AUTOR_ALCO],
    where [df_filtered.get] gives [None] and the table is then indexed by
    [False]. *)
Theorem missing_column_raises :
  tratamento no_parse sem_dt_notific = Raise (KeyError (Col "DT_NOTIFIC")) /\
  tratamento no_parse sem_dt_nasc = Raise (KeyError (Col "DT_NASC")) /\
  (app no_parse (Read sem_viol_fisic) [2021] start).2
    = Raise (KeyError (Col "VIOL_FISIC")) /\
  (app no_parse (Read sem_autor_alco) [2021] start).2
    = Raise (KeyError PyFalse) /\
  (app no_parse (Read sem_autor_alco) [] start).2
    = Raise (KeyError PyFalse).
Proof. split_and!; vm_compute; reflexivity. Qed.

(** ** Running the panel *)

Lemma run_bind {A B : Type} (m : Script A) (f : A -> Script B) (s : Store) :
  (m ≫= f) s =
    match m s with
    | (s', Ok a) => f a s'
    | (s', Raise e) => (s', Raise e)
    end.
Proof. reflexivity. Qed.

Lemma run_emit {B : Type} (w : Widget) (f : unit -> Script B) (s : Store) :
  (emit w ≫= f) s = f tt {| heap := heap s; page := page s ++ [w] |}.
Proof. reflexivity. Qed.

Lemma run_deref {B : Type} (r : nat) (f : DataFrame -> Script B) (s : Store) :
  (deref r ≫= f) s = f (default (mkDataFrame [] []) (heap s !! r)) s.
Proof. reflexivity. Qed.

Lemma run_lift_Ok {A B : Type} (a : A) (f : A -> Script B) (s : Store) :
  (lift (Ok a) ≫= f) s = f a s.
Proof. reflexivity. Qed.

Lemma run_lift_Raise {A B : Type} (e : Exception) (f : A -> Script B) (s : Store) :
  (lift (Raise e) ≫= f) s = (s, Raise e).
Proof. reflexivity. Qed.

Lemma run_new {B : Type} (df : DataFrame) (f : nat -> Script B) (s : Store) :
  (new df ≫= f) s
  = f (length (heap s)) {| heap := heap s ++ [df]; page := page s |}.
Proof. reflexivity. Qed.

Lemma run_assign {B : Type} (r : nat) (col : string) (series : Series)
    (f : unit -> Script B) (s : Store) :
  (assign r col series ≫= f) s
  = f tt {| heap := alter (fun df => setitem df col series) r (heap s);
            page := page s |}.
Proof. reflexivity. Qed.

Lemma only_writes_ret {A : Type} (a : A) : only_writes (mret a : Script A).
Proof. by intros s. Qed.

Lemma only_writes_emit (w : Widget) : only_writes (emit w).
Proof. by intros s. Qed.

Lemma only_writes_lift {A : Type} (r : Result A) : only_writes (lift r).
Proof. by intros s. Qed.

Lemma only_writes_deref (r : nat) : only_writes (deref r).
Proof. by intros s. Qed.

Lemma only_writes_bind {A B : Type} (m : Script A) (f : A -> Script B) :
  only_writes m -> (forall a, only_writes (f a)) -> only_writes (m ≫= f).
Proof.
  intros Hm Hf s. rewrite run_bind. specialize (Hm s).
  destruct (m s) as [s1 [a|e]]; cbn [fst] in *; [|done].
  by rewrite Hf.
Qed.

Lemma only_writes_if {A : Type} (b : bool) (m1 m2 : Script A) :
  only_writes m1 -> only_writes m2 -> only_writes (if b then m1 else m2).
Proof. by destruct b. Qed.

Ltac only_writes_steps :=
  cbv zeta;
  repeat first
    [ apply only_writes_emit | apply only_writes_lift | apply only_writes_deref
    | apply only_writes_ret | apply only_writes_if
    | apply only_writes_bind; [|intros ?] ].

Lemma kpis_only_writes (df_filtered : nat) : only_writes (kpis df_filtered).
Proof. unfold kpis. only_writes_steps. Qed.

Lemma perfil_da_vitima_only_writes (df_filtered : nat) :
  only_writes (perfil_da_vitima df_filtered).
Proof. unfold perfil_da_vitima. only_writes_steps. Qed.

Lemma caracteristicas_da_violencia_only_writes (df_filtered : nat) :
  only_writes (caracteristicas_da_violencia df_filtered).
Proof. unfold caracteristicas_da_violencia. only_writes_steps. Qed.

(** What a statement that writes on the page at most leaves to the
    statements after it. *)
Lemma run_only_writes {A B : Type} (m : Script A) (f : A -> Script B) (s : Store) :
  only_writes m ->
  exists s1 r1, heap s1 = heap s /\
    (m ≫= f) s = match r1 with Ok a => f a s1 | Raise e => (s1, Raise e) end.
Proof.
  intros Hm. specialize (Hm s). rewrite run_bind.
  destruct (m s) as [s1 r1]. exists s1, r1. split; [done|]. by destruct r1.
Qed.

Lemma run_ret {A B : Type} (a : A) (f : A -> Script B) (s : Store) :
  (mret a ≫= f) s = f a s.
Proof. reflexivity. Qed.

Lemma alter_at {A : Type} (f g : A -> A) (l : list A) (i : nat) (x : A) :
  l !! i = Some x -> f x = g x -> alter f i l = alter g i l.
Proof.
  revert i. induction l as [|y l IH]; intros [|i] Hi Hfg; cbn in *; try done.
  - injection Hi as ->. by rewrite Hfg.
  - f_equal. by apply IH.
Qed.

(** The third line of charts never raises, and assigns the decoded column
    to the filtered table when [AUTOR_SEXO] is there. *)
Lemma perfil_do_autor_run (r : nat) (s : Store) (d : DataFrame) :
  heap s !! r = Some d ->
  exists ws,
    perfil_do_autor r s
    = ({| heap := alter com_sexo_autor r (heap s); page := page s ++ ws |}, Ok tt).
Proof.
  intros Hd. unfold perfil_do_autor.
  rewrite !run_emit, run_deref. cbn [heap page]. rewrite Hd.
  change (default (mkDataFrame [] []) (Some d)) with d.
  rewrite run_emit. cbn [heap page].
  destruct (has_column d "ALCOOL_DESC"); [rewrite run_emit|rewrite run_ret];
    cbn [heap page];
    (destruct (has_column d "AUTOR_SEXO") eqn:Hsexo;
     [ rewrite run_assign, run_deref; cbn [heap page];
       rewrite list_lookup_alter_eq, Hd;
       change (default (mkDataFrame [] []) (?f <$> Some d)) with (f d);
       rewrite (getitem_has_column _ "SEXO_AUTOR_DESC")
         by (by rewrite has_column_setitem, orb_true_r);
       rewrite run_lift_Ok; unfold emit; cbn [heap page];
       rewrite (alter_at _ com_sexo_autor _ _ d Hd)
         by (unfold com_sexo_autor; by rewrite Hsexo)
     | unfold mret, Script_ret;
       rewrite (alter_at com_sexo_autor id _ _ d Hd)
         by (unfold com_sexo_autor; by rewrite Hsexo);
       rewrite list_alter_id by done ]);
    rewrite <- ?app_assoc; eexists; reflexivity.
Qed.

Lemma alter_last {A : Type} (f : A -> A) (l : list A) (x : A) :
  alter f (length l) (l ++ [x]) = l ++ [f x].
Proof.
  rewrite <- (Nat.add_0_r (length l)). by rewrite alter_app_r.
Qed.

Lemma lookup_last {A : Type} (l : list A) (x : A) :
  (l ++ [x]) !! length l = Some x.
Proof. by rewrite list_lookup_middle. Qed.

Ltac run_block lemma :=
  match goal with
  | |- context [(?m ≫= ?f) ?s0] =>
      let s1 := fresh "s" in
      let r1 := fresh "r" in
      let Hs1 := fresh "Hs" in
      let Hrun := fresh "Hrun" in
      destruct (run_only_writes m f s0 (lemma _)) as (s1 & r1 & Hs1 & Hrun);
      rewrite Hrun; clear Hrun; cbn [heap] in Hs1;
      destruct r1 as [[]|?]
  end.

(** What a run of the panel does to the table objects.  The table it was
    given is unchanged, whether the run completes or raises, and so is every
    other object that existed; a completed run has made one more object, the
    filtered table, to which it has assigned the column [SEXO_AUTOR_DESC]
    when the column [AUTOR_SEXO] is there, and nothing else. *)
Lemma painel_heap (df : nat) (anos_sel : list Z) (s : Store) (d : DataFrame) :
  heap s !! df = Some d ->
  exists made,
    heap (painel df anos_sel s).1 = heap s ++ made /\
    ((painel df anos_sel s).2 = Ok tt ->
       made = [com_sexo_autor (filtrado d anos_sel)]).
Proof.
  intros Hd. unfold painel.
  rewrite run_emit, run_deref. cbn [heap page]. rewrite Hd.
  change (default (mkDataFrame [] []) (Some d)) with d.
  unfold getitem. destruct (has_column d "ANO_NOTIFICACAO").
  - rewrite run_lift_Ok, run_emit, run_new, !run_emit. cbn [heap page].
    fold (filtrado d anos_sel).
    run_block kpis_only_writes;
      [|exists [filtrado d anos_sel]; cbn [fst snd]; by rewrite Hs].
    run_block perfil_da_vitima_only_writes;
      [|exists [filtrado d anos_sel]; cbn [fst snd]; split; [congruence|done]].
    run_block caracteristicas_da_violencia_only_writes;
      [|exists [filtrado d anos_sel]; cbn [fst snd]; split; [congruence|done]].
    assert (heap s2 = heap s ++ [filtrado d anos_sel]) as Hheap by congruence.
    rewrite run_bind.
    destruct (perfil_do_autor_run (length (heap s)) s2 (filtrado d anos_sel))
      as [ws ->].
    { rewrite Hheap. apply lookup_last. }
    rewrite run_emit. unfold emit. cbn [heap page fst snd].
    exists [com_sexo_autor (filtrado d anos_sel)]. split; [|done].
    rewrite Hheap. apply alter_last.
  - rewrite run_lift_Raise. exists []. cbn [fst snd heap].
    split; [by rewrite app_nil_r|done].
Qed.

(** C3, as the specification states it, fails on the filtered table: a run
    of the script on a table with the sex of the author ends with two table
    objects, and the second, the sub-view of the selected years, has one
    column more than the cached table it was derived from, so that it is no
    longer the sub-view as it was derived. *)
Lemma sub_view_gains_column :
  columns <$> heap (app no_parse (Read com_autor) [2021] start).1
  = [ ["CS_SEXO"; "DT_NOTIFIC"; "DT_NASC"; "VIOL_FISIC"; "AUTOR_ALCO";
       "AUTOR_SEXO"; "ANO_NOTIFICACAO"; "IDADE_CALCULADA"; "FAIXA_ETARIA";
       "ALCOOL_DESC"];
      ["CS_SEXO"; "DT_NOTIFIC"; "DT_NASC"; "VIOL_FISIC"; "AUTOR_ALCO";
       "AUTOR_SEXO"; "ANO_NOTIFICACAO"; "IDADE_CALCULADA"; "FAIXA_ETARIA";
       "ALCOOL_DESC"; "SEXO_AUTOR_DESC"] ] /\
  column (default (mkDataFrame [] [])
            (heap (app no_parse (Read com_autor) [2021] start).1 !! 1%nat))
    "SEXO_AUTOR_DESC"
  = [Str "Masculino"; Str "Ignorado"] /\
  heap (app no_parse (Read com_autor) [2021] start).1 !! 1%nat
  <> Some (filtrado (returned (tratamento no_parse com_autor)) [2021]).
Proof.
  split_and!; [vm_compute; reflexivity..|].
  intros Hsame. apply (f_equal (fmap columns)) in Hsame.
  vm_compute in Hsame. discriminate Hsame.
Qed.

(** C3, amended. The presentation leaves the cached table unchanged,
    whether the run completes or raises.  The filtered table it derives is a
    new object with the columns of the cached table and its rows of the
    selected years; the run assigns one column to it, [SEXO_AUTOR_DESC],
    the decoded sex of the author, when the column [AUTOR_SEXO] is there,
    and changes no other column and no row count of it. *)
Theorem painel_leaves_cached_table
    (df : nat) (anos_sel : list Z) (s : Store) (d : DataFrame) :
  heap s !! df = Some d ->
  let s' := (painel df anos_sel s).1 in
  heap s' !! df = Some d /\
  take (length (heap s)) (heap s') = heap s /\
  ((painel df anos_sel s).2 = Ok tt ->
     heap s' = heap s ++ [com_sexo_autor (filtrado d anos_sel)]) /\
  columns (filtrado d anos_sel) = columns d /\
  writes ["SEXO_AUTOR_DESC"] (filtrado d anos_sel) (com_sexo_autor (filtrado d anos_sel)) /\
  (has_column d "AUTOR_SEXO" = false ->
     com_sexo_autor (filtrado d anos_sel) = filtrado d anos_sel).
Proof.
  intros Hd. cbv zeta.
  destruct (painel_heap df anos_sel s d Hd) as (made & Hheap & Hmade).
  split_and!.
  - rewrite Hheap. by apply lookup_app_l_Some.
  - rewrite Hheap. by rewrite take_app_length.
  - intros Hok. by rewrite Hheap, (Hmade Hok).
  - reflexivity.
  - unfold com_sexo_autor. destruct (has_column _ "AUTOR_SEXO"); [|apply writes_refl].
    apply setitem_writes. solve_len.
  - intros Hsexo. unfold com_sexo_autor.
    change (has_column (filtrado d anos_sel) "AUTOR_SEXO")
      with (has_column d "AUTOR_SEXO").
    by rewrite Hsexo.
Qed.

Lemma painel_leaves_cached_table_witness :
  heap (painel 0 [2021] carregado).1 !! 0%nat
  = Some (returned (tratamento no_parse com_autor)).
Proof.
  exact (proj1 (painel_leaves_cached_table 0 [2021] carregado
                  (returned (tratamento no_parse com_autor)) eq_refl)).
Defined.

(** ** Indicator families *)

Section SortValues.

Context {K : Type}.

Lemma Forall_insert_sorted (P : K * nat -> Prop) (lt : K * nat -> K * nat -> bool)
    (x : K * nat) (l : list (K * nat)) :
  P x -> Forall P l -> Forall P (insert_sorted lt x l).
Proof.
  intros Hx Hl. induction Hl as [|y l Hy Hl IH]; cbn.
  - by constructor.
  - destruct (lt x y); repeat constructor; done.
Qed.

Lemma Forall_sort_values (P : K * nat -> Prop) (ascending : bool)
    (l : list (K * nat)) :
  Forall P l -> Forall P (sort_values ascending l).
Proof.
  unfold sort_values. induction 1 as [|x l Hx Hl IH]; cbn; [constructor|].
  by apply Forall_insert_sorted.
Qed.

Lemma length_insert_sorted (lt : K * nat -> K * nat -> bool)
    (x : K * nat) (l : list (K * nat)) :
  length (insert_sorted lt x l) = S (length l).
Proof.
  induction l as [|y l IH]; cbn; [done|].
  destruct (lt x y); cbn; by rewrite ?IH.
Qed.

Lemma length_sort_values (ascending : bool) (l : list (K * nat)) :
  length (sort_values ascending l) = length l.
Proof.
  unfold sort_values. induction l as [|x l IH]; cbn; [done|].
  by rewrite length_insert_sorted, IH.
Qed.

Lemma insert_sorted_falling (x : K * nat) (l : list (K * nat)) :
  StronglySorted falling l ->
  StronglySorted falling
    (insert_sorted (fun x y => (Qtd y <=? Qtd x)%nat) x l).
Proof.
  induction 1 as [|y l Hl IH Hy]; cbn.
  - repeat constructor.
  - destruct (Nat.leb_spec (Qtd y) (Qtd x)) as [Hle|Hlt].
    + constructor; [by constructor|]. constructor; [done|].
      eapply Forall_impl; [exact Hy|]. unfold falling. cbn. lia.
    + constructor; [done|]. apply Forall_insert_sorted; [|done].
      unfold falling. lia.
Qed.

Lemma sort_values_falling (l : list (K * nat)) :
  StronglySorted falling (sort_values false l).
Proof.
  unfold sort_values. induction l as [|x l IH]; cbn; [constructor|].
  by apply insert_sorted_falling.
Qed.

Lemma StronglySorted_take (R : K * nat -> K * nat -> Prop) (n : nat)
    (l : list (K * nat)) :
  StronglySorted R l -> StronglySorted R (take n l).
Proof.
  intros Hl. revert n. induction Hl as [|x l Hl IH Hx]; intros [|n]; cbn;
    try constructor; [apply IH|].
  by apply Forall_take.
Qed.

End SortValues.

Lemma Forall_dict_set {V : Type} (P : string * V -> Prop)
    (d : list (string * V)) (k : string) (v : V) :
  P (k, v) -> Forall P d -> Forall P (dict_set d k v).
Proof.
  intros Hkv Hd. induction Hd as [|[k' v'] d Hk' Hd IH]; cbn.
  - by constructor.
  - destruct (bool_decide (k' = k)); by constructor.
Qed.

Lemma dados_familia_positive (prefix : string) (d : DataFrame) (cols : list string) :
  Forall (fun row => (0 < Qtd row)%nat) (dados_familia prefix d cols).
Proof.
  unfold dados_familia.
  assert (Forall (fun row : string * nat => (0 < Qtd row)%nat) []) as Hnil
    by constructor.
  revert Hnil. generalize (@nil (string * nat)).
  induction cols as [|col cols IH]; intros dados Hdados; cbn [foldl]; [done|].
  apply IH. cbv zeta.
  destruct (Nat.ltb_spec 0 (count_present d (column d col)));
    [|done].
  by apply Forall_dict_set.
Qed.

(** The aggregation of an indicator family has no row of count zero, at
    most N rows, and no count larger than one before it. *)
Lemma df_familia_top_n (prefix excluded : string) (n : nat) (d : DataFrame) :
  Forall (fun row => (0 < Qtd row)%nat) (df_familia prefix excluded n d) /\
  (length (df_familia prefix excluded n d) <= n)%nat /\
  StronglySorted falling (df_familia prefix excluded n d).
Proof.
  unfold df_familia, head. split_and!.
  - apply Forall_take, Forall_sort_values. unfold items.
    apply Forall_fmap. eapply Forall_impl; [apply dados_familia_positive|].
    by intros [k v].
  - rewrite length_take. lia.
  - apply StronglySorted_take, sort_values_falling.
Qed.

(** C7. The label of an entry is not always the column name with its
    family prefix stripped and the rest in title case: [replace] removes
    every occurrence of the marker, so column [AG_PAG_FOGO] is labelled
    "Pfogo" where stripping the prefix gives "Pag_Fogo". *)
Theorem label_removes_every_marker :
  df_meio marcador_repetido = [(Str "Fogo", 2%nat); (Str "Pfogo", 1%nat)] /\
  title (replace "AG_" "" "AG_PAG_FOGO") = "Pfogo" /\
  title (strip_prefix "AG_" "AG_PAG_FOGO") = "Pag_Fogo" /\
  title (replace "AG_" "" "AG_FOGO") = title (strip_prefix "AG_" "AG_FOGO").
Proof. split_and!; vm_compute; reflexivity. Qed.

(** ** The metrics of the panel *)

(** The line of metrics on a table that has the columns it reads. *)
Lemma kpis_run (r : nat) (s : Store) (d : DataFrame) :
  heap s !! r = Some d ->
  has_column d "VIOL_FISIC" = true ->
  has_column d "AUTOR_ALCO" = true ->
  has_column d "FAIXA_ETARIA" = true ->
  kpis r s = ({| heap := heap s; page := page s ++ metricas d |}, Ok tt).
Proof.
  intros Hd Hviol Halco Hfaixa. unfold kpis, metricas, top_faixa.
  rewrite run_emit, run_deref. cbn [heap page]. rewrite Hd.
  change (default (mkDataFrame [] []) (Some d)) with d.
  rewrite run_emit. unfold count_where, get.
  rewrite (getitem_has_column _ _ Hviol), bind_Ok, run_lift_Ok, run_emit.
  rewrite Halco, run_lift_Ok, run_emit.
  rewrite (getitem_has_column _ _ Hfaixa), bind_Ok.
  destruct (empty d); rewrite run_lift_Ok; unfold emit; cbn [heap page];
    by rewrite <- !app_assoc.
Qed.



(** ** Runs that complete *)







Section Complete.

Variable parse_datetime : Series -> Cell -> option Z.




End Complete.


(** ** Labels of a family whose marker stands at the start only *)

Lemma replace_from_without (old new s : string) :
  contains old s = false -> replace_from old new 0 s = s.
Proof.
  induction s as [|c s IH]; [done|].
  cbn [contains replace_from]. intros [Hhere Hlater]%orb_false_iff.
  rewrite Hhere. f_equal. by apply IH.
Qed.

Lemma replace_from_skip (old new a s : string) :
  replace_from old new (String.length a) (a +:+ s) = replace_from old new 0 s.
Proof. induction a as [|c a IH]; [done|]. exact IH. Qed.

Lemma prefix_append (p s : string) : String.prefix p (p +:+ s) = true.
Proof.
  induction p as [|c p IH]; [by destruct s|].
  change (String c p +:+ s) with (String c (p +:+ s)).
  cbn [String.prefix]. by destruct (Ascii.ascii_dec c c).
Qed.

Lemma replace_at_prefix (old new s : string) :
  old <> EmptyString ->
  replace old new (old +:+ s) = new +:+ replace old new s.
Proof.
  intros Hold. unfold replace. destruct old as [|c old]; [done|].
  change (String c old +:+ s) with (String c (old +:+ s)).
  cbn [replace_from].
  change (String c (old +:+ s)) with (String c old +:+ s).
  rewrite prefix_append.
  replace (String.length (String c old) - 1)%nat with (String.length old)
    by (cbn [String.length]; lia).
  by rewrite replace_from_skip.
Qed.

Lemma strip_prefix_append (p s : string) : strip_prefix p (p +:+ s) = s.
Proof.
  unfold strip_prefix, startswith. rewrite prefix_append.
  induction p as [|c p IH]; [by destruct s|]. exact IH.
Qed.

(** The label of a column whose name is the family prefix followed by a
    rest in which the marker does not occur again is the rest in title
    case, the prefix stripped. *)
Lemma label_strips_prefix (prefix rest : string) :
  prefix <> EmptyString ->
  contains prefix rest = false ->
  title (replace prefix "" (prefix +:+ rest)) = title rest /\
  strip_prefix prefix (prefix +:+ rest) = rest.
Proof.
  intros Hprefix Hrest. split; [|apply strip_prefix_append].
  rewrite replace_at_prefix by done. unfold replace.
  by rewrite replace_from_without.
Qed.

Lemma label_strips_prefix_witness :
  title (replace "REL_" "" "REL_EXCON") = "Excon" /\
  strip_prefix "REL_" "REL_EXCON" = "EXCON".
Proof. apply (label_strips_prefix "REL_" "EXCON"); [discriminate|reflexivity]. Defined.

(** ** The calendar *)

Lemma elem_of_anos (ano : Series) (y : Z) : y ∈ anos ano <-> Int y ∈ ano.
Proof.
  unfold anos. rewrite list_elem_of_omap. split.
  - intros (c & Hc & Hy). destruct c; try discriminate. by injection Hy as ->.
  - intros Hy. by exists (Int y).
Qed.

Lemma Sorted_le_lt (l : list Z) :
  NoDup l -> Sorted Z.le l -> StronglySorted Z.lt l.
Proof.
  intros Hnd Hs. apply Sorted_StronglySorted in Hs; [|intros x y z; lia].
  induction Hs as [|x l Hs IH Hx]; [constructor|].
  apply NoDup_cons in Hnd as [Hx' Hnd]. constructor; [by apply IH|].
  apply Forall_forall. intros y Hy.
  assert (x <= y) by (by eapply Forall_forall in Hx).
  assert (x <> y) by (intros ->; done). lia.
Qed.

Lemma year_from_days_period (z k : Z) :
  year_from_days (z + 146097 * k) = year_from_days z + 400 * k.
Proof.
  unfold year_from_days.
  replace (z + 146097 * k + 719468) with (z + 719468 + k * 146097) by lia.
  rewrite Z.div_add by lia.
  set (era := (z + 719468) / 146097).
  replace (z + 719468 + k * 146097 - (era + k) * 146097)
    with (z + 719468 - era * 146097) by lia.
  set (doe := z + 719468 - era * 146097).
  set (yoe := (doe - doe / 1460 + doe / 36524 - doe / 146096) / 365).
  destruct (_ <=? 2); lia.
Qed.

Lemma days_from_civil_period (y m d k : Z) :
  days_from_civil (y + 400 * k) m d = days_from_civil y m d + 146097 * k.
Proof.
  unfold days_from_civil.
  set (y' := if m <=? 2 then y - 1 else y).
  replace (if m <=? 2 then y + 400 * k - 1 else y + 400 * k) with (y' + k * 400)
    by (unfold y'; destruct (m <=? 2); lia).
  rewrite Z.div_add by lia.
  replace (y' + k * 400 - (y' / 400 + k) * 400) with (y' - y' / 400 * 400) by lia.
  lia.
Qed.

(** The dates of one period of the calendar, checked one by one. *)
Lemma period_ok :
  forallb (fun y => forallb (fun m => forallb (fun d => year_ok y m d) (seqZ 1 31))
                      (seqZ 1 12)) (seqZ 0 400) = true.
Proof. vm_compute. reflexivity. Qed.

Lemma forallb_seqZ (f : Z -> bool) (a n x : Z) :
  forallb f (seqZ a n) = true -> a <= x < a + n -> f x = true.
Proof.
  intros Hall Hx. rewrite forallb_forall in Hall.
  apply Hall, list_elem_of_In, elem_of_seqZ, Hx.
Qed.

Lemma period_checked (y m d : Z) :
  0 <= y < 400 -> 1 <= m <= 12 -> 1 <= d <= 31 ->
  year_from_days (days_from_civil y m d) = y.
Proof.
  intros Hy Hm Hd. apply Z.eqb_eq. change (year_ok y m d = true).
  apply (forallb_seqZ (fun d => year_ok y m d) 1 31); [|lia].
  apply (forallb_seqZ
           (fun m => forallb (fun d => year_ok y m d) (seqZ 1 31)) 1 12); [|lia].
  apply (forallb_seqZ
           (fun y => forallb (fun m => forallb (fun d => year_ok y m d) (seqZ 1 31))
                       (seqZ 1 12)) 0 400); [|lia].
  exact period_ok.
Qed.

Lemma year_of_date (y m d : Z) :
  1 <= m <= 12 -> 1 <= d <= 31 ->
  year_from_days (days_from_civil y m d) = y.
Proof.
  intros Hm Hd.
  pose proof (Z.mod_pos_bound y 400 ltac:(lia)) as Hy.
  pose proof (Z.div_mod y 400 ltac:(lia)) as Hdiv.
  assert (y = y mod 400 + 400 * (y / 400)) as Heq by lia.
  rewrite Heq at 1.
  rewrite days_from_civil_period, year_from_days_period.
  rewrite period_checked by lia. lia.
Qed.

(** ** The date columns *)

Section Datas.

Variable parse_datetime : Series -> Cell -> option Z.

Lemma has_column_datas_step (df : DataFrame) (col c : string) :
  has_column (datas_step parse_datetime df col) c = has_column df c.
Proof.
  unfold datas_step. destruct (has_column df col) eqn:Hcol; [|done].
  rewrite has_column_setitem. destruct (bool_decide_reflect (c = col)) as [->|];
    [by rewrite Hcol|apply orb_false_r].
Qed.

Lemma has_column_datas (df : DataFrame) (c : string) :
  has_column (datas parse_datetime df) c = has_column df c.
Proof. unfold datas, cols_data. cbn [foldl]. by rewrite !has_column_datas_step. Qed.

Lemma column_datas_step_eq (df : DataFrame) (col : string) :
  has_column df col = true ->
  column (datas_step parse_datetime df col) col
  = to_datetime parse_datetime (column df col).
Proof.
  intros Hcol. unfold datas_step. rewrite Hcol.
  apply column_setitem_eq. rewrite length_to_datetime. apply length_column.
Qed.

Lemma column_datas_step_ne (df : DataFrame) (col c : string) :
  col <> c -> column (datas_step parse_datetime df col) c = column df c.
Proof.
  intros Hne. destruct (datas_step_writes parse_datetime df col) as (_ & _ & Hother).
  apply Hother. by rewrite list_elem_of_singleton.
Qed.

(** The loop over the date columns converts each one that is there from the
    column as the population filter left it. *)
Lemma column_datas (df : DataFrame) (c : string) :
  c ∈ cols_data -> has_column df c = true ->
  column (datas parse_datetime df) c = to_datetime parse_datetime (column df c).
Proof.
  unfold datas, cols_data. cbn [foldl]. intros Hc Hcol.
  apply elem_of_cons in Hc as [->|Hc]; [|apply elem_of_cons in Hc as [->|Hc]].
  - rewrite (column_datas_step_ne _ "DT_OCOR"), (column_datas_step_ne _ "DT_NASC")
      by done.
    by apply column_datas_step_eq.
  - rewrite (column_datas_step_ne _ "DT_OCOR") by done.
    rewrite column_datas_step_eq by (by rewrite has_column_datas_step).
    by rewrite column_datas_step_ne.
  - apply list_elem_of_singleton in Hc as ->.
    rewrite column_datas_step_eq by (by rewrite !has_column_datas_step).
    by rewrite !column_datas_step_ne.
Qed.

Lemma to_datetime_is_date (s : Series) :
  Forall (fun c => is_date c = true) (to_datetime parse_datetime s).
Proof.
  unfold to_datetime. apply Forall_fmap, Forall_forall. intros c _. cbn.
  destruct c; try done; by destruct (parse_datetime s _).
Qed.

Lemma to_datetime_keeps (s : Series) :
  Forall2 (fun c c' => is_date c = true -> c' = c) s (to_datetime parse_datetime s).
Proof.
  unfold to_datetime. apply Forall2_fmap_r, Forall_Forall2_diag, Forall_forall.
  intros c _. by destruct c.
Qed.

(** After the preparation, a date column that the source has holds the
    conversion of the column the population filter left: every cell of it
    is a timestamp or missing, whatever the source held, and the timestamps
    and the missing cells of the source are kept as they are. *)
Theorem datas_coerced (raw df : DataFrame) (c : string) :
  tratamento parse_datetime raw = Ok df ->
  c ∈ cols_data -> has_column raw c = true ->
  column df c = to_datetime parse_datetime (column (filtro_sexo_feminino raw) c) /\
  Forall (fun x => is_date x = true) (column df c) /\
  Forall2 (fun x x' => is_date x = true -> x' = x)
    (column (filtro_sexo_feminino raw) c) (column df c).
Proof.
  intros Hok Hc Hcol.
  destruct (tratamento_Ok _ _ _ Hok) as (_ & _ & ->).
  assert (column (derivados (datas parse_datetime (filtro_sexo_feminino raw))) c
          = to_datetime parse_datetime (column (filtro_sexo_feminino raw) c)) as ->.
  { destruct (derivados_writes (datas parse_datetime (filtro_sexo_feminino raw)))
      as (_ & _ & Hother).
    rewrite Hother.
    - apply column_datas; [done|]. unfold has_column in *.
      by rewrite filtro_sexo_feminino_columns.
    - unfold cols_data in Hc.
      repeat (apply elem_of_cons in Hc as [->|Hc]; [by_compute|]).
      by apply elem_of_nil in Hc. }
  split_and!; [done|apply to_datetime_is_date|apply to_datetime_keeps].
Qed.

End Datas.

Lemma datas_coerced_witness :
  column (returned (tratamento no_parse datas_mistas)) "DT_NOTIFIC"
  = [date 2021 3 10; NaN; NaN].
Proof.
  assert (tratamento no_parse datas_mistas
          = Ok (returned (tratamento no_parse datas_mistas))) as Hok
    by (vm_compute; reflexivity).
  destruct (datas_coerced no_parse datas_mistas _ "DT_NOTIFIC" Hok) as (-> & _).
  - by_compute.
  - reflexivity.
  - vm_compute. reflexivity.
Defined.

(** ** The year of the notification *)

Lemma dt_year_date (y m d t : Z) :
  1 <= m <= 12 -> 1 <= d <= 31 -> 0 <= t < NS_PER_DAY ->
  dt_year (Timestamp (days_from_civil y m d * NS_PER_DAY + t)) = Int y.
Proof.
  intros Hm Hd Ht. unfold dt_year.
  replace (days_from_civil y m d * NS_PER_DAY + t)
    with (t + days_from_civil y m d * NS_PER_DAY) by lia.
  rewrite Z.div_add by done. rewrite Z.div_small by done.
  rewrite Z.add_0_l. by rewrite year_of_date.
Qed.

Lemma ano_rows (parse_datetime : Series -> Cell -> option Z) (raw df : DataFrame) :
  tratamento parse_datetime raw = Ok df ->
  Forall (fun r =>
    cell "ANO_NOTIFICACAO" r = dt_year (cell "DT_NOTIFIC" r) /\
    is_date (cell "DT_NOTIFIC" r) = true) (rows df).
Proof.
  intros Hok. destruct (tratamento_Ok _ _ _ Hok) as (Hnotific & _ & Hdf).
  rewrite has_column_datas in Hnotific.
  pose proof (derivados_columns (datas parse_datetime (filtro_sexo_feminino raw)))
    as (_ & _ & Hano & _).
  pose proof (derivados_writes (datas parse_datetime (filtro_sexo_feminino raw)))
    as (_ & _ & Hother).
  specialize (Hother "DT_NOTIFIC" ltac:(by_compute)).
  rewrite (column_datas parse_datetime _ "DT_NOTIFIC" ltac:(by_compute) Hnotific)
    in Hother.
  rewrite <- Hdf in Hano, Hother. clear Hdf Hok Hnotific.
  pose proof (to_datetime_is_date parse_datetime
                (column (filtro_sexo_feminino raw) "DT_NOTIFIC")) as Hdate.
  rewrite <- Hother in Hdate. clear Hother.
  unfold column in Hano, Hdate. rewrite <- list_fmap_compose in Hano.
  apply fmap_eq_Forall in Hano. apply Forall_fmap in Hdate.
  rewrite Forall_forall in Hano, Hdate. apply Forall_forall. intros r Hr.
  split; [exact (Hano r Hr)|exact (Hdate r Hr)].
Qed.

(** The year column of the enriched table holds, in a row notified at any
    time of the calendar day [d] of month [m] of year [y], the year [y]; it
    is missing exactly in the rows whose notification date is missing, and
    holds a number in every other row. *)
Theorem ano_notificacao_calendar
    (parse_datetime : Series -> Cell -> option Z) (raw df : DataFrame) :
  tratamento parse_datetime raw = Ok df ->
  Forall (fun r =>
    (forall y m d t,
       1 <= m <= 12 -> 1 <= d <= 31 -> 0 <= t < NS_PER_DAY ->
       cell "DT_NOTIFIC" r = Timestamp (days_from_civil y m d * NS_PER_DAY + t) ->
       cell "ANO_NOTIFICACAO" r = Int y) /\
    (cell "ANO_NOTIFICACAO" r = NaN <-> cell "DT_NOTIFIC" r = NaN) /\
    (cell "ANO_NOTIFICACAO" r = NaN \/ exists y, cell "ANO_NOTIFICACAO" r = Int y))
    (rows df).
Proof.
  intros Hok. eapply Forall_impl; [exact (ano_rows _ _ _ Hok)|].
  cbv beta. intros r [Hano Hdate].
  rewrite Hano. split_and!.
  - intros y m d t Hm Hd Ht ->. by apply dt_year_date.
  - destruct (cell "DT_NOTIFIC" r); done.
  - destruct (cell "DT_NOTIFIC" r); cbn; eauto.
Qed.

Lemma ano_notificacao_calendar_witness :
  Forall (fun r => cell "ANO_NOTIFICACAO" r = NaN <-> cell "DT_NOTIFIC" r = NaN)
    (rows (returned (tratamento no_parse datas_mistas))).
Proof.
  assert (tratamento no_parse datas_mistas
          = Ok (returned (tratamento no_parse datas_mistas))) as Hok
    by (vm_compute; reflexivity).
  eapply Forall_impl; [exact (ano_notificacao_calendar _ _ _ Hok)|].
  cbv beta. intros r (_ & Hr & _). exact Hr.
Defined.

(** ** The filter of the sidebar *)

Lemma rows_filtrado (d : DataFrame) (anos_sel : list Z) :
  rows (filtrado d anos_sel)
  = List.filter (fun r => isin (Int <$> anos_sel) (cell "ANO_NOTIFICACAO" r)) (rows d).
Proof.
  unfold filtrado, getitem_mask, column. cbn [rows].
  rewrite <- list_fmap_compose. apply select_fmap.
Qed.

Lemma List_filter_sublist {A : Type} (f : A -> bool) (l : list A) :
  List.filter f l `sublist_of` l.
Proof.
  induction l as [|x l IH]; cbn; [constructor|].
  destruct (f x); by constructor.
Qed.

Lemma isin_Int (anos_sel : list Z) (c : Cell) :
  isin (Int <$> anos_sel) c = true <-> exists y, c = Int y /\ y ∈ anos_sel.
Proof.
  unfold isin. rewrite bool_decide_eq_true, list_elem_of_fmap. naive_solver.
Qed.

(** The filtered table holds the rows of the table whose year is one of the
    selected years, in their order and with the columns of the table; a row
    without a year is in no selection, and no selection adds a row. *)
Theorem year_filter (d : DataFrame) (anos_sel : list Z) :
  rows (filtrado d anos_sel)
  = List.filter (fun r => isin (Int <$> anos_sel) (cell "ANO_NOTIFICACAO" r)) (rows d) /\
  columns (filtrado d anos_sel) = columns d /\
  (forall r, r ∈ rows (filtrado d anos_sel) <->
     r ∈ rows d /\ exists y, cell "ANO_NOTIFICACAO" r = Int y /\ y ∈ anos_sel) /\
  rows (filtrado d anos_sel) `sublist_of` rows d /\
  (len (filtrado d anos_sel) <= len d)%nat.
Proof.
  split_and!.
  - apply rows_filtrado.
  - reflexivity.
  - intros r. rewrite rows_filtrado, list_elem_of_In, filter_In, <- list_elem_of_In.
    by rewrite isin_Int.
  - rewrite rows_filtrado. apply List_filter_sublist.
  - unfold len. rewrite rows_filtrado. apply sublist_length, List_filter_sublist.
Qed.

Lemma List_filter_ext_Forall {A : Type} (f g : A -> bool) (l : list A) :
  Forall (fun x => f x = g x) l -> List.filter f l = List.filter g l.
Proof.
  induction 1 as [|x l Hx _ IH]; [done|]. cbn. by rewrite Hx, IH.
Qed.

Lemma anos_disponiveis_members (ano : Series) (y : Z) :
  y ∈ anos_disponiveis ano <-> Int y ∈ ano.
Proof.
  unfold anos_disponiveis. rewrite merge_sort_Permutation, elem_of_remove_dups.
  apply elem_of_anos.
Qed.

(** The options of the sidebar are the years that the year column holds,
    each one once and in increasing order; a missing year is no option. *)
Theorem anos_disponiveis_increasing (ano : Series) :
  StronglySorted Z.lt (anos_disponiveis ano) /\
  NoDup (anos_disponiveis ano) /\
  (forall y, y ∈ anos_disponiveis ano <-> Int y ∈ ano).
Proof.
  unfold anos_disponiveis. fold (anos ano). split_and!.
  - apply Sorted_le_lt.
    + rewrite merge_sort_Permutation. apply NoDup_remove_dups.
    + apply (Sorted_merge_sort Z.le).
  - rewrite merge_sort_Permutation. apply NoDup_remove_dups.
  - intros y. apply anos_disponiveis_members.
Qed.

(** With every option of the sidebar selected, which is the selection a
    run starts with, the filtered table holds the rows of the enriched table
    whose notification date is defined, and only them; a row without
    notification date is in the filtered table of no selection. *)
Theorem default_selection
    (parse_datetime : Series -> Cell -> option Z) (raw df : DataFrame) :
  tratamento parse_datetime raw = Ok df ->
  rows (filtrado df (anos_disponiveis (column df "ANO_NOTIFICACAO")))
  = List.filter (fun r => negb (isna (cell "DT_NOTIFIC" r))) (rows df) /\
  forall anos_sel : list Z,
    Forall (fun r => cell "DT_NOTIFIC" r <> NaN) (rows (filtrado df anos_sel)).
Proof.
  intros Hok. pose proof (ano_rows _ _ _ Hok) as Hrows. split.
  - rewrite rows_filtrado. apply List_filter_ext_Forall.
    rewrite Forall_forall in Hrows. apply Forall_forall. intros r Hr.
    destruct (Hrows r Hr) as [Hano Hdate].
    destruct (cell "DT_NOTIFIC" r) eqn:Hnotific; try done; cbn in Hano.
    + apply bool_decide_eq_false. rewrite Hano, list_elem_of_fmap.
      intros (y & Hy & _). discriminate Hy.
    + apply bool_decide_eq_true, list_elem_of_fmap. eexists. split; [exact Hano|].
      apply anos_disponiveis_members. rewrite <- Hano.
      unfold column. apply list_elem_of_fmap. by exists r.
  - intros anos_sel. rewrite rows_filtrado. apply Forall_forall. intros r Hr.
    apply list_elem_of_In, filter_In in Hr as [Hr Hsel].
    apply list_elem_of_In in Hr. rewrite Forall_forall in Hrows.
    destruct (Hrows r Hr) as [Hano _]. intros Hnan.
    rewrite Hnan in Hano. cbn in Hano. rewrite Hano in Hsel.
    apply isin_Int in Hsel as (y & Hy & _). discriminate Hy.
Qed.

Lemma default_selection_witness :
  rows (filtrado (returned (tratamento no_parse datas_mistas))
          (anos_disponiveis
             (column (returned (tratamento no_parse datas_mistas)) "ANO_NOTIFICACAO")))
  = List.filter (fun r => negb (isna (cell "DT_NOTIFIC" r)))
      (rows (returned (tratamento no_parse datas_mistas))).
Proof.
  apply (default_selection no_parse datas_mistas). vm_compute. reflexivity.
Defined.

(** ** Counting *)

Lemma length_select_le {A : Type} (mask : list bool) (l : list A) :
  (length (select mask l) <= length l)%nat.
Proof.
  revert l. induction mask as [|b mask IH]; intros [|x l]; cbn; try lia.
  specialize (IH l). destruct b; cbn; lia.
Qed.

Lemma count_present_le (d : DataFrame) (s : Series) :
  (count_present d s <= len d)%nat.
Proof. unfold count_present, len, getitem_mask. cbn [rows]. apply length_select_le. Qed.

Lemma count_present_column (d : DataFrame) (col : string) :
  count_present d (column d col)
  = length (List.filter (fun r => eq_scalar 1 (cell col r)) (rows d)).
Proof.
  unfold count_present, len, getitem_mask, column. cbn [rows].
  by rewrite <- list_fmap_compose, select_fmap.
Qed.

Lemma pct_alcool_range (a n : nat) :
  (a <= n)%nat -> (0 <= pct_alcool a n <= 100)%Q.
Proof.
  intros Han. unfold pct_alcool.
  destruct (Nat.ltb_spec 0 n) as [Hn|Hn]; [|split; done].
  assert (0 < inject_Z (Z.of_nat n))%Q as Hpos.
  { rewrite <- (Zlt_Qlt 0). lia. }
  assert (0 <= inject_Z (Z.of_nat a) / inject_Z (Z.of_nat n))%Q as Hlo.
  { apply Qle_shift_div_l; [done|]. rewrite Qmult_0_l.
    rewrite <- (Zle_Qle 0). lia. }
  assert (inject_Z (Z.of_nat a) / inject_Z (Z.of_nat n) <= 1)%Q as Hhi.
  { apply Qle_shift_div_r; [done|]. rewrite Qmult_1_l.
    rewrite <- Zle_Qle. lia. }
  split.
  - apply Qmult_le_0_compat; done.
  - change 100%Q with (1 * 100)%Q at 2. by apply Qmult_le_compat_r.
Qed.

(** The counts of the metrics are at most the number of rows of the
    filtered table, and the percentage lies between 0 and 100; it is 100
    when every row has alcohol code 1 and there is a row. *)
Theorem metricas_in_range (d : DataFrame) (s : Series) :
  (count_present d s <= len d)%nat /\
  (0 <= pct_alcool (count_present d s) (len d) <= 100)%Q /\
  ((0 < len d)%nat -> count_present d s = len d ->
   (pct_alcool (count_present d s) (len d) == 100)%Q).
Proof.
  split; [apply count_present_le|]. split.
  - apply pct_alcool_range, count_present_le.
  - intros Hpos ->. unfold pct_alcool.
    destruct (Nat.ltb_spec 0 (len d)) as [_|]; [|lia].
    field. unfold Qeq. cbn [Qnum Qden inject_Z]. lia.
Qed.

Lemma metricas_in_range_witness :
  (pct_alcool (count_present alcool_em_todas (column alcool_em_todas "AUTOR_ALCO"))
     (len alcool_em_todas) == 100)%Q.
Proof.
  apply (metricas_in_range alcool_em_todas (column alcool_em_todas "AUTOR_ALCO"));
    [cbn; lia|reflexivity].
Defined.

(** ** Tables of labels and counts *)

Section Counts.

Context {K : Type} `{EqDecision K}.

Lemma insert_sorted_Permutation (before : K * nat -> K * nat -> bool)
    (x : K * nat) (l : list (K * nat)) :
  insert_sorted before x l ≡ₚ x :: l.
Proof.
  induction l as [|y l IH]; cbn; [done|].
  destruct (before x y); [done|]. rewrite IH. apply Permutation_swap.
Qed.

Lemma sort_values_Permutation (ascending : bool) (l : list (K * nat)) :
  sort_values ascending l ≡ₚ l.
Proof.
  unfold sort_values. induction l as [|x l IH]; cbn; [done|].
  by rewrite insert_sorted_Permutation, IH.
Qed.

Lemma insert_sorted_rising (x : K * nat) (l : list (K * nat)) :
  StronglySorted rising l ->
  StronglySorted rising
    (insert_sorted (fun x y => (Qtd x <=? Qtd y)%nat) x l).
Proof.
  induction 1 as [|y l Hl IH Hy]; cbn.
  - repeat constructor.
  - destruct (Nat.leb_spec (Qtd x) (Qtd y)) as [Hle|Hlt].
    + constructor; [by constructor|]. constructor; [done|].
      eapply Forall_impl; [exact Hy|]. unfold rising. cbn. lia.
    + constructor; [done|]. apply Forall_insert_sorted; [|done].
      unfold rising. lia.
Qed.

Lemma sort_values_rising (l : list (K * nat)) :
  StronglySorted rising (sort_values true l).
Proof.
  unfold sort_values. induction l as [|x l IH]; cbn; [constructor|].
  by apply insert_sorted_rising.
Qed.

Lemma total_Permutation (l l' : list (K * nat)) : l ≡ₚ l' -> total l = total l'.
Proof. intros Hp. unfold total. by rewrite Hp. Qed.

Lemma conta_elem (l : list (K * nat)) (k : K) (n : nat) :
  NoDup (fst <$> l) -> (k, n) ∈ l -> conta l k = n.
Proof.
  induction l as [|[k' n'] l IH]; cbn; intros Hnd Hin.
  - by apply elem_of_nil in Hin.
  - apply NoDup_cons in Hnd as [Hk' Hnd].
    apply elem_of_cons in Hin as [[= -> ->]|Hin].
    + rewrite bool_decide_eq_true_2 by done.
      assert (conta l k' = 0%nat) as ->; [|lia].
      clear IH Hnd. induction l as [|[k2 n2] l IH]; cbn; [done|].
      rewrite fmap_cons, not_elem_of_cons in Hk'. destruct Hk' as [Hne Hk'].
      rewrite bool_decide_eq_false_2 by done. by rewrite IH.
    + rewrite (IH Hnd Hin).
      rewrite bool_decide_eq_false_2; [lia|].
      intros ->. apply Hk', list_elem_of_fmap. by exists (k, n).
Qed.

Lemma conta_pos (l : list (K * nat)) (k : K) :
  (0 < conta l k)%nat -> exists n, (k, n) ∈ l.
Proof.
  induction l as [|[k' n'] l IH]; cbn; [lia|]. intros Hpos.
  destruct (bool_decide_reflect (k' = k)) as [->|Hne].
  - exists n'. apply elem_of_cons. by left.
  - destruct IH as [n Hn]; [lia|]. exists n. apply elem_of_cons. by right.
Qed.

End Counts.

Lemma conta_tally (acc : list (Cell * nat)) (c k : Cell) :
  conta (tally c acc) k
  = (conta acc k + if bool_decide (c = k) then 1 else 0)%nat.
Proof.
  induction acc as [|[k' n'] acc IH]; cbn.
  - destruct (bool_decide (c = k)); lia.
  - destruct (bool_decide_reflect (k' = c)) as [->|Hne]; cbn.
    + destruct (bool_decide (c = k)); lia.
    + rewrite IH. lia.
Qed.

Lemma keys_tally (acc : list (Cell * nat)) (c : Cell) :
  fst <$> tally c acc
  = if bool_decide (c ∈ fst <$> acc) then fst <$> acc else (fst <$> acc) ++ [c].
Proof.
  induction acc as [|[k' n'] acc IH]; cbn; [done|].
  destruct (bool_decide_reflect (k' = c)) as [->|Hne]; cbn.
  - rewrite bool_decide_eq_true_2; [done|]. apply elem_of_cons. by left.
  - rewrite IH. destruct (bool_decide_reflect (c ∈ fst <$> acc)) as [Hin|Hin].
    + rewrite bool_decide_eq_true_2; [done|]. apply elem_of_cons. by right.
    + rewrite bool_decide_eq_false_2; [done|].
      rewrite not_elem_of_cons. split; [congruence|done].
Qed.

Lemma tally_positive (acc : list (Cell * nat)) (c : Cell) :
  Forall (fun row => (0 < Qtd row)%nat) acc ->
  Forall (fun row => (0 < Qtd row)%nat) (tally c acc).
Proof.
  induction 1 as [|[k' n'] acc Hrow Hacc IH]; cbn.
  - repeat constructor.
  - destruct (bool_decide (k' = c)); constructor; cbn in *; try done. lia.
Qed.

Lemma total_tally (acc : list (Cell * nat)) (c : Cell) :
  total (tally c acc) = S (total acc).
Proof.
  unfold total. induction acc as [|[k' n'] acc IH]; cbn; [done|].
  destruct (bool_decide (k' = c)); cbn; [done|]. rewrite IH. lia.
Qed.

Lemma ocorrencias_snoc (k c : Cell) (s : Series) :
  ocorrencias k (s ++ [c])
  = (ocorrencias k s + if bool_decide (c = k) then 1 else 0)%nat.
Proof.
  unfold ocorrencias. rewrite List.filter_app, length_app. cbn [List.filter].
  by destruct (bool_decide (c = k)).
Qed.

Lemma length_dropna_snoc (c : Cell) (s : Series) :
  length (dropna (s ++ [c]))
  = (length (dropna s) + if isna c then 0 else 1)%nat.
Proof.
  unfold dropna. rewrite List.filter_app, length_app. cbn [List.filter].
  by destruct (isna c).
Qed.

(** What the counting loop of [value_counts] has made of a series. *)
Lemma contagem_invariant (s : Series) :
  let acc := foldl (fun acc c => if isna c then acc else tally c acc) [] s in
  NoDup (fst <$> acc) /\
  Forall (fun row => (0 < Qtd row)%nat) acc /\
  (forall k, conta acc k = if isna k then 0%nat else ocorrencias k s) /\
  total acc = length (dropna s).
Proof.
  induction s as [|c s IH] using rev_ind; cbv zeta.
  - cbn. split_and!; [constructor|constructor| |done].
    intros k. by destruct (isna k).
  - rewrite foldl_app. cbn [foldl]. cbv zeta in IH.
    set (acc := foldl _ [] s) in *.
    destruct IH as (Hnd & Hpos & Hconta & Htotal).
    rewrite length_dropna_snoc.
    destruct (isna c) eqn:Hc.
    + split_and!; [done|done| |lia].
      intros k. rewrite Hconta, ocorrencias_snoc. destruct (isna k) eqn:Hk; [done|].
      rewrite bool_decide_eq_false_2; [lia|]. intros ->; congruence.
    + split_and!.
      * rewrite keys_tally. destruct (bool_decide_reflect (c ∈ fst <$> acc)); [done|].
        apply NoDup_app. split_and!; [done| |apply NoDup_singleton].
        intros x Hx ->%list_elem_of_singleton. done.
      * by apply tally_positive.
      * intros k. rewrite conta_tally, Hconta, ocorrencias_snoc.
        destruct (isna k) eqn:Hk; [|done].
        rewrite bool_decide_eq_false_2; [done|]. intros ->; congruence.
      * rewrite total_tally, Htotal. lia.
Qed.

Lemma elem_of_value_counts (s : Series) (k : Cell) (n : nat) :
  (k, n) ∈ value_counts s <->
  isna k = false /\ (0 < n)%nat /\ n = ocorrencias k s.
Proof.
  destruct (contagem_invariant s) as (Hnd & Hpos & Hconta & _).
  cbv zeta in *. unfold value_counts.
  set (acc := foldl _ [] s) in *.
  rewrite (sort_values_Permutation false acc). split.
  - intros Hin. pose proof (conta_elem _ _ _ Hnd Hin) as Hn.
    rewrite Forall_forall in Hpos. specialize (Hpos _ Hin). cbn in Hpos.
    rewrite Hconta in Hn. destruct (isna k); [lia|]. by split_and!.
  - intros (Hk & Hn & ->). specialize (Hconta k). rewrite Hk in Hconta.
    destruct (conta_pos acc k) as [m Hm]; [lia|].
    by rewrite <- Hconta, (conta_elem _ _ _ Hnd Hm).
Qed.

(** The table of a pie chart.  Its labels are the values of the column that
    are not missing, each one once; the count of a label is the number of
    cells that hold it, so that no count is zero; the counts add up to the
    number of cells that are not missing; and no count is larger than one
    before it. *)
Theorem value_counts_table (s : Series) :
  NoDup (fst <$> value_counts s) /\
  (forall k n, (k, n) ∈ value_counts s <->
     isna k = false /\ (0 < n)%nat /\ n = ocorrencias k s) /\
  (forall k, k ∈ fst <$> value_counts s <-> k ∈ s /\ isna k = false) /\
  total (value_counts s) = length (dropna s) /\
  StronglySorted falling (value_counts s).
Proof.
  destruct (contagem_invariant s) as (Hnd & _ & _ & Htotal). cbv zeta in *.
  split_and!.
  - unfold value_counts. by rewrite (sort_values_Permutation false).
  - apply elem_of_value_counts.
  - intros k. rewrite list_elem_of_fmap. split.
    + intros ([k' n] & -> & Hin). apply elem_of_value_counts in Hin as (Hk & Hn & ->).
      split; [|done]. cbn in *. unfold ocorrencias in Hn.
      destruct (List.filter _ s) as [|c l] eqn:Hf; [cbn in Hn; lia|].
      assert (In c (List.filter (fun c => bool_decide (c = k')) s)) as Hc
        by (rewrite Hf; by left).
      apply filter_In in Hc as [Hc ->%bool_decide_eq_true].
      by apply list_elem_of_In.
    + intros [Hk Hna]. exists (k, ocorrencias k s). split; [done|].
      apply elem_of_value_counts. split_and!; [done| |done].
      unfold ocorrencias. apply list_elem_of_In in Hk.
      assert (In k (List.filter (fun c => bool_decide (c = k)) s)) as Hin
        by (apply filter_In; split; [done|by apply bool_decide_eq_true]).
      destruct (List.filter _ s); [done|cbn; lia].
  - unfold value_counts. by rewrite (total_Permutation _ _ (sort_values_Permutation false _)).
  - apply sort_values_falling.
Qed.

(** ** The pies of the decoded columns *)

Lemma dropna_all (s : Series) :
  Forall (fun c => isna c = false) s -> dropna s = s.
Proof.
  unfold dropna. induction 1 as [|c s Hc _ IH]; [done|].
  cbn. by rewrite Hc, IH.
Qed.

Lemma decode_not_missing (m : gmap Z string) (s : Series) :
  Forall (fun c => isna c = false) (decode m <$> s).
Proof.
  apply Forall_fmap, Forall_forall. intros c _. cbn.
  unfold decode, map_dict. destruct c as [|z| | |]; try done.
  by destruct (m !! z).
Qed.

Lemma Forall_sublist_of {A : Type} (P : A -> Prop) (l k : list A) :
  l `sublist_of` k -> Forall P k -> Forall P l.
Proof.
  intros Hsub Hall. rewrite Forall_forall in Hall. apply Forall_forall.
  intros x Hx. eapply Hall, elem_of_sublist; done.
Qed.

Lemma column_filtrado (d : DataFrame) (anos_sel : list Z) (c : string) :
  column (filtrado d anos_sel) c `sublist_of` column d c.
Proof.
  unfold column. rewrite rows_filtrado. apply fmap_sublist, List_filter_sublist.
Qed.

Lemma total_value_counts_all (s : Series) :
  Forall (fun c => isna c = false) s -> total (value_counts s) = length s.
Proof.
  intros Hs. destruct (contagem_invariant s) as (_ & _ & _ & Htotal).
  cbv zeta in Htotal. unfold value_counts.
  rewrite (total_Permutation _ _ (sort_values_Permutation false _)), Htotal.
  by rewrite dropna_all.
Qed.

(** The pie of a decoded column accounts for every row of the filtered
    table: the counts of its slices add up to the number of rows, whatever
    the years selected, for the alcohol use and the marital status of the
    enriched table and for the sex of the author that the last chart
    decodes. *)
Theorem pies_account_for_every_row
    (parse_datetime : Series -> Cell -> option Z) (raw df : DataFrame)
    (anos_sel : list Z) :
  tratamento parse_datetime raw = Ok df ->
  let d := filtrado df anos_sel in
  (has_column raw "AUTOR_ALCO" = true ->
     total (value_counts (column d "ALCOOL_DESC")) = len d) /\
  (has_column raw "SIT_CONJUG" = true ->
     total (value_counts (column d "SIT_CONJUG_DESC")) = len d) /\
  (has_column d "AUTOR_SEXO" = true ->
     total (value_counts (column (com_sexo_autor d) "SEXO_AUTOR_DESC")) = len d).
Proof.
  intros Hok. cbv zeta.
  destruct (tratamento_Ok _ _ _ Hok) as (_ & _ & ->).
  set (d1 := datas parse_datetime (filtro_sexo_feminino raw)).
  destruct (derivados_columns d1) as (_ & _ & _ & Halco & Hconj).
  assert (forall c, has_column raw c = true -> has_column d1 c = true) as Hd1.
  { intros c Hc. unfold d1. rewrite has_column_datas. unfold has_column in *.
    by rewrite filtro_sexo_feminino_columns. }
  assert (forall (m : gmap Z string) (c c' : string),
            column (derivados d1) c = decode m <$> column (derivados d1) c' ->
            total (value_counts (column (filtrado (derivados d1) anos_sel) c))
            = len (filtrado (derivados d1) anos_sel)) as Hpie.
  { intros m c c' Hc. rewrite total_value_counts_all; [apply length_column|].
    eapply Forall_sublist_of; [apply column_filtrado|].
    rewrite Hc. apply decode_not_missing. }
  split_and!.
  - intros Hcol. apply (Hpie map_sinan _ "AUTOR_ALCO"), Halco, Hd1, Hcol.
  - intros Hcol. apply (Hpie map_conjugal _ "SIT_CONJUG"), Hconj, Hd1, Hcol.
  - intros Hsexo. unfold com_sexo_autor. rewrite Hsexo.
    rewrite column_setitem_eq by solve_len.
    rewrite total_value_counts_all by apply decode_not_missing.
    solve_len.
Qed.

Lemma pies_account_for_every_row_witness :
  total (value_counts
           (column (filtrado (returned (tratamento no_parse com_autor)) [2021])
              "ALCOOL_DESC")) = 2%nat.
Proof.
  assert (tratamento no_parse com_autor
          = Ok (returned (tratamento no_parse com_autor))) as Hok
    by (vm_compute; reflexivity).
  destruct (pies_account_for_every_row _ _ _ [2021] Hok) as (Halco & _).
  rewrite (Halco eq_refl). vm_compute. reflexivity.
Defined.

(** ** The bars of the age brackets *)

Lemma total_category_counts_cons (cats : list string) (c : Cell) (s : Series) :
  total (category_counts cats (c :: s))
  = (total (category_counts cats s)
     + length (List.filter (fun lab => bool_decide (c = Str lab)) cats))%nat.
Proof.
  unfold total, category_counts. induction cats as [|lab cats IH]; [done|].
  rewrite !fmap_cons. cbn [sum_list_with]. rewrite IH.
  unfold Qtd at 1 3. unfold id. cbn [snd List.filter].
  destruct (bool_decide (c = Str lab)); cbn [length]; lia.
Qed.

Lemma length_filter_NoDup (cats : list string) (c : Cell) :
  NoDup cats ->
  length (List.filter (fun lab => bool_decide (c = Str lab)) cats)
  = if bool_decide (c ∈ Str <$> cats) then 1%nat else 0%nat.
Proof.
  induction 1 as [|lab cats Hlab Hnd IH]; [done|]. cbn [List.filter].
  rewrite fmap_cons.
  destruct (bool_decide_reflect (c = Str lab)) as [->|Hne].
  - rewrite bool_decide_eq_true_2 by (apply elem_of_cons; by left).
    cbn [length]. rewrite IH. rewrite bool_decide_eq_false_2; [done|].
    rewrite list_elem_of_fmap. intros (lab' & [= <-] & Hin). done.
  - rewrite IH. apply (f_equal (fun b : bool => if b then 1%nat else 0%nat)).
    apply bool_decide_ext. rewrite elem_of_cons. split; [by right|].
    by intros [?|?].
Qed.

Lemma NoDup_labels : NoDup labels.
Proof. by_compute. Qed.

Lemma cut_label (c : Cell) :
  cut bins labels c = NaN \/ cut bins labels c ∈ Str <$> labels.
Proof.
  destruct c as [|a| | |]; try by left.
  rewrite cut_bins_labels.
  repeat (destruct (_ && _); [right; by_compute|]). by left.
Qed.

Lemma total_category_counts (s : Series) :
  Forall (fun c => c = NaN \/ c ∈ Str <$> labels) s ->
  total (category_counts labels s) = length (dropna s).
Proof.
  induction 1 as [|c s Hc _ IH].
  - vm_compute. reflexivity.
  - rewrite total_category_counts_cons, IH, (length_filter_NoDup _ _ NoDup_labels).
    unfold dropna. cbn [List.filter]. destruct Hc as [->|Hc].
    + rewrite bool_decide_eq_false_2 by by_compute. cbn. lia.
    + rewrite bool_decide_eq_true_2 by done.
      assert (isna c = false) as ->; [|cbn; lia].
      apply list_elem_of_fmap in Hc as (lab & -> & _). done.
Qed.

Lemma length_dropna_NaN (s : Series) :
  (length (dropna s) + ocorrencias NaN s)%nat = length s.
Proof.
  unfold dropna, ocorrencias. induction s as [|c s IH]; [done|].
  cbn [List.filter length].
  destruct c; cbn [isna negb];
    rewrite ?(bool_decide_eq_true_2 (NaN = NaN)) by done;
    rewrite ?bool_decide_eq_false_2 by done; cbn [length]; lia.
Qed.

(** The bar chart of the age brackets has one bar for each of the five
    brackets, in the order of the brackets and also where no row has the
    bracket; the height of a bar is the number of rows of the filtered
    table with that bracket; and the bars account for the rows that have a
    bracket: their heights and the number of rows without a bracket add up
    to the number of rows. *)
Theorem contagem_etaria_bars
    (parse_datetime : Series -> Cell -> option Z) (raw df : DataFrame)
    (anos_sel : list Z) :
  tratamento parse_datetime raw = Ok df ->
  let faixa := column (filtrado df anos_sel) "FAIXA_ETARIA" in
  category_counts labels faixa
  = (fun lab => (Str lab, ocorrencias (Str lab) faixa)) <$> labels /\
  length (category_counts labels faixa) = 5%nat /\
  (total (category_counts labels faixa) + ocorrencias NaN faixa)%nat
  = len (filtrado df anos_sel).
Proof.
  intros Hok. cbv zeta. split_and!; [reflexivity|reflexivity|].
  destruct (tratamento_Ok _ _ _ Hok) as (_ & _ & ->).
  set (d1 := datas parse_datetime (filtro_sexo_feminino raw)).
  destruct (derivados_columns d1) as (_ & Hfaixa & _).
  set (faixa := column (filtrado (derivados d1) anos_sel) "FAIXA_ETARIA").
  assert (Forall (fun c => c = NaN \/ c ∈ Str <$> labels) faixa) as Hall.
  { eapply Forall_sublist_of; [apply column_filtrado|].
    rewrite Hfaixa. apply Forall_fmap, Forall_forall. intros c _. apply cut_label. }
  rewrite (total_category_counts _ Hall).
  rewrite <- (length_column _ "FAIXA_ETARIA"). fold faixa.
  apply length_dropna_NaN.
Qed.

Lemma contagem_etaria_bars_witness :
  category_counts labels
    (column (filtrado (returned (tratamento no_parse com_autor)) [2021]) "FAIXA_ETARIA")
  = [(Str "Criança (0-9)", 1%nat); (Str "Adolescente (10-19)", 0%nat);
     (Str "Jovem (20-24)", 0%nat); (Str "Adulta (25-59)", 1%nat);
     (Str "Idosa (60+)", 0%nat)].
Proof.
  assert (tratamento no_parse com_autor
          = Ok (returned (tratamento no_parse com_autor))) as Hok
    by (vm_compute; reflexivity).
  destruct (contagem_etaria_bars _ _ _ [2021] Hok) as (-> & _).
  vm_compute. reflexivity.
Defined.

(** ** The most frequent bracket *)

Lemma idxmax_max (l : list (Cell * nat)) :
  l <> [] ->
  exists k n, idxmax l = Some k /\ (k, n) ∈ l /\
    Forall (fun r => (Qtd r <= n)%nat) l.
Proof.
  induction l as [|[k n] l IH]; [done|]. intros _. cbn [idxmax].
  destruct l as [|r l].
  - exists k, n. split_and!; [done|apply list_elem_of_here|].
    repeat constructor.
  - destruct IH as (k' & n' & -> & Hin & Hmax); [done|].
    destruct (forallb (fun r0 => (Qtd r0 <=? n)%nat) (r :: l)) eqn:Hall.
    + exists k, n. split_and!; [done|apply list_elem_of_here|].
      constructor; [done|]. apply Forall_forall. intros x Hx.
      rewrite forallb_forall in Hall. apply Nat.leb_le, Hall.
      by apply list_elem_of_In.
    + exists k', n'. split_and!; [done|by apply list_elem_of_further|].
      constructor; [|done]. cbn.
      destruct (Nat.le_gt_cases n n') as [|Hlt]; [done|]. exfalso.
      assert (forallb (fun r0 => (Qtd r0 <=? n)%nat) (r :: l) = true) as Habs;
        [|congruence].
      apply forallb_forall. intros x Hx%list_elem_of_In. apply Nat.leb_le.
      rewrite Forall_forall in Hmax. specialize (Hmax x Hx). lia.
Qed.

(** The bracket of the fourth metric is a bracket that no other bracket
    has more rows than, for a filtered table that is not empty, also when
    no row of it has a bracket; for an empty one the metric shows "-". *)
Theorem top_faixa_most_frequent (d : DataFrame) :
  (empty d = true -> top_faixa d = Str "-") /\
  (empty d = false ->
   exists lab, lab ∈ labels /\ top_faixa d = Str lab /\
     forall lab', lab' ∈ labels ->
       (ocorrencias (Str lab') (column d "FAIXA_ETARIA")
        <= ocorrencias (Str lab) (column d "FAIXA_ETARIA"))%nat).
Proof.
  unfold top_faixa. split; intros ->; [done|].
  set (faixa := column d "FAIXA_ETARIA").
  pose proof (sort_values_Permutation false (category_counts labels faixa)) as Hperm.
  destruct (idxmax_max (value_counts_categorical labels faixa))
    as (k & n & -> & Hin & Hmax).
  { unfold value_counts_categorical. intros Hnil. rewrite Hnil in Hperm.
    apply Permutation_nil_l in Hperm. discriminate Hperm. }
  unfold value_counts_categorical in Hin, Hmax.
  rewrite Hperm in Hin. rewrite Hperm in Hmax.
  unfold category_counts in Hin, Hmax.
  apply list_elem_of_fmap in Hin as (lab & [= -> ->] & Hlab).
  exists lab. split_and!; [done|done|].
  intros lab' Hlab'. rewrite Forall_fmap, Forall_forall in Hmax.
  exact (Hmax lab' Hlab').
Qed.

Lemma top_faixa_most_frequent_witness :
  exists lab, lab ∈ labels /\
    top_faixa (returned (tratamento no_parse com_autor)) = Str lab /\
    forall lab', lab' ∈ labels ->
      (ocorrencias (Str lab')
         (column (returned (tratamento no_parse com_autor)) "FAIXA_ETARIA")
       <= ocorrencias (Str lab)
            (column (returned (tratamento no_parse com_autor)) "FAIXA_ETARIA"))%nat.
Proof.
  apply (top_faixa_most_frequent (returned (tratamento no_parse com_autor))).
  vm_compute. reflexivity.
Defined.

(** ** The types of violence *)

Lemma dados_violencia_eq (d : DataFrame) :
  dados_violencia d
  = omap (fun '(col, nome) =>
            if has_column d col
            then Some (nome, count_present d (column d col)) else None)
      cols_violencia.
Proof.
  unfold dados_violencia, cols_violencia.
  cbn -[has_column count_present column dict_set].
  generalize (count_present d (column d "VIOL_FISIC")).
  generalize (count_present d (column d "VIOL_PSICO")).
  generalize (count_present d (column d "VIOL_SEXU")).
  generalize (count_present d (column d "VIOL_TORT")).
  generalize (count_present d (column d "VIOL_FINAN")).
  generalize (count_present d (column d "VIOL_NEGLI")).
  intros n6 n5 n4 n3 n2 n1.
  destruct (has_column d "VIOL_FISIC"), (has_column d "VIOL_PSICO"),
    (has_column d "VIOL_SEXU"), (has_column d "VIOL_TORT"),
    (has_column d "VIOL_FINAN"), (has_column d "VIOL_NEGLI");
    vm_compute; reflexivity.
Qed.

(** The chart of the types of violence has one bar for each of the six
    indicator columns that the filtered table has, under the name of the
    type and also where its count is zero, and no other bar; the length of
    a bar is the number of rows whose indicator is 1, and no bar is longer
    than one after it. *)
Theorem tipos_de_violencia_bars (d : DataFrame) :
  (forall k n, (k, n) ∈ df_viol_tipo d <->
     exists col nome, (col, nome) ∈ cols_violencia /\ has_column d col = true /\
       k = Str nome /\ n = count_present d (column d col)) /\
  length (df_viol_tipo d)
  = length (List.filter (fun cn => has_column d cn.1) cols_violencia) /\
  NoDup (fst <$> df_viol_tipo d) /\
  StronglySorted rising (df_viol_tipo d).
Proof.
  unfold df_viol_tipo.
  pose proof (sort_values_Permutation true (items (dados_violencia d))) as Hperm.
  split_and!.
  - intros k n. rewrite Hperm. unfold items.
    rewrite dados_violencia_eq, list_elem_of_fmap. split.
    + intros ([nome q] & [= -> ->] & Hin).
      apply list_elem_of_omap in Hin as ([col nome'] & Hin & Hsome).
      destruct (has_column d col) eqn:Hcol; [|discriminate].
      injection Hsome as -> <-. by exists col, nome.
    + intros (col & nome & Hin & Hcol & -> & ->).
      exists (nome, count_present d (column d col)). split; [done|].
      apply list_elem_of_omap. exists (col, nome). split; [done|].
      by rewrite Hcol.
  - rewrite Hperm. unfold items. rewrite length_fmap, dados_violencia_eq.
    unfold cols_violencia. cbn -[has_column count_present column].
    destruct (has_column d "VIOL_FISIC"), (has_column d "VIOL_PSICO"),
      (has_column d "VIOL_SEXU"), (has_column d "VIOL_TORT"),
      (has_column d "VIOL_FINAN"), (has_column d "VIOL_NEGLI"); reflexivity.
  - rewrite Hperm. unfold items. rewrite dados_violencia_eq.
    unfold cols_violencia. cbn -[has_column count_present column].
    destruct (has_column d "VIOL_FISIC"), (has_column d "VIOL_PSICO"),
      (has_column d "VIOL_SEXU"), (has_column d "VIOL_TORT"),
      (has_column d "VIOL_FINAN"), (has_column d "VIOL_NEGLI");
      cbn [fmap list_fmap fst]; by_compute.
  - apply sort_values_rising.
Qed.

(** ** The entries of an indicator family *)

Lemma dict_set_keys {V : Type} (d : list (string * V)) (k : string) (v : V) :
  fst <$> dict_set d k v
  = if bool_decide (k ∈ fst <$> d) then fst <$> d else (fst <$> d) ++ [k].
Proof.
  induction d as [|[k' v'] d IH]; cbn; [done|].
  destruct (bool_decide_reflect (k' = k)) as [->|Hne]; cbn.
  - rewrite bool_decide_eq_true_2; [done|]. apply elem_of_cons. by left.
  - rewrite IH. destruct (bool_decide_reflect (k ∈ fst <$> d)) as [Hin|Hin].
    + rewrite bool_decide_eq_true_2; [done|]. apply elem_of_cons. by right.
    + rewrite bool_decide_eq_false_2; [done|].
      rewrite not_elem_of_cons. split; [congruence|done].
Qed.

Lemma elem_of_dict_set {V : Type} (d : list (string * V)) (k : string) (v : V)
    (x : string * V) :
  x ∈ dict_set d k v -> x = (k, v) \/ x ∈ d.
Proof.
  induction d as [|[k' v'] d IH]; cbn.
  - intros Hx%list_elem_of_singleton. by left.
  - destruct (bool_decide (k' = k)).
    + intros [->|Hx]%elem_of_cons; [by left|]. right. by apply list_elem_of_further.
    + intros [->|Hx]%elem_of_cons; [right; apply list_elem_of_here|].
      destruct (IH Hx) as [->|Hd]; [by left|]. right. by apply list_elem_of_further.
Qed.

Lemma NoDup_dict_set {V : Type} (d : list (string * V)) (k : string) (v : V) :
  NoDup (fst <$> d) -> NoDup (fst <$> dict_set d k v).
Proof.
  intros Hnd. rewrite dict_set_keys.
  destruct (bool_decide_reflect (k ∈ fst <$> d)); [done|].
  apply NoDup_app. split_and!; [done| |apply NoDup_singleton].
  intros x Hx ->%list_elem_of_singleton. done.
Qed.

Lemma dict_set_keys_elem {V : Type} (d : list (string * V)) (k k' : string) (v : V) :
  k' ∈ fst <$> dict_set d k v <-> k' = k \/ k' ∈ fst <$> d.
Proof.
  rewrite dict_set_keys. destruct (bool_decide_reflect (k ∈ fst <$> d)) as [Hin|Hin].
  - split; [by right|]. by intros [->|?].
  - rewrite elem_of_app, list_elem_of_singleton. tauto.
Qed.

Lemma elem_of_cols_familia (prefix excluded : string) (d : DataFrame) (col : string) :
  col ∈ cols_familia prefix excluded d
  <-> col ∈ columns d /\ startswith prefix col = true /\ col <> excluded.
Proof.
  unfold cols_familia. rewrite list_elem_of_In, filter_In, <- list_elem_of_In.
  rewrite andb_true_iff, negb_true_iff, bool_decide_eq_false. tauto.
Qed.

(** What the loop over the columns of a family has put in its dictionary. *)
Lemma dados_familia_invariant (prefix : string) (d : DataFrame) (cols : list string) :
  NoDup (fst <$> dados_familia prefix d cols) /\
  (forall k q, (k, q) ∈ dados_familia prefix d cols ->
     exists col, col ∈ cols /\ k = title (replace prefix "" col) /\
       q = count_present d (column d col) /\ (0 < q)%nat) /\
  (forall col, col ∈ cols -> (0 < count_present d (column d col))%nat ->
     title (replace prefix "" col) ∈ fst <$> dados_familia prefix d cols).
Proof.
  induction cols as [|c cols IH] using rev_ind.
  - split_and!; [constructor| |].
    + intros k q Hin. by apply elem_of_nil in Hin.
    + intros col Hin. by apply elem_of_nil in Hin.
  - destruct IH as (Hnd & Hsound & Hcompl).
    unfold dados_familia in *. rewrite foldl_app. cbn [foldl]. cbv zeta.
    set (dados := foldl _ [] cols) in *.
    destruct (Nat.ltb_spec 0 (count_present d (column d c))) as [Hpos|Hzero].
    + split_and!.
      * by apply NoDup_dict_set.
      * intros k q Hin. apply elem_of_dict_set in Hin as [Heq|Hin].
        -- injection Heq as -> ->. exists c. split_and!; [|done..].
           apply elem_of_app. right. apply list_elem_of_here.
        -- destruct (Hsound k q Hin) as (col & Hcol & Hrest).
           exists col. split; [|done]. apply elem_of_app. by left.
      * intros col [Hcol|Hcol%list_elem_of_singleton]%elem_of_app Hq;
          apply dict_set_keys_elem; [right; by apply Hcompl|left; by subst col].
    + split_and!; [done| |].
      * intros k q Hin. destruct (Hsound k q Hin) as (col & Hcol & Hrest).
        exists col. split; [|done]. apply elem_of_app. by left.
      * intros col [Hcol|Hcol%list_elem_of_singleton]%elem_of_app Hq;
          [by apply Hcompl|subst col; lia].
Qed.

Lemma keys_items (dados : list (string * nat)) :
  fst <$> items dados = Str <$> (fst <$> dados).
Proof.
  unfold items. induction dados as [|[k v] dados IH]; [done|].
  rewrite !fmap_cons. by rewrite IH.
Qed.

Lemma NoDup_items (dados : list (string * nat)) :
  NoDup (fst <$> dados) -> NoDup (fst <$> items dados).
Proof.
  intros Hnd. rewrite keys_items. apply NoDup_fmap_2; [|done]. by intros ?? [= ->].
Qed.

(** The table of an indicator family, before its first rows are taken,
    has one entry for each label of a column of the family in which some
    row holds 1, and no other entry; no label stands twice.  The label of
    an entry is the cleaned name of such a column and its count the number
    of rows of that column that hold 1; the columns of the family are
    those of the filtered table whose name starts with the prefix, the
    excluded one apart. *)
Theorem tabela_familia_entries (prefix excluded : string) (d : DataFrame) :
  NoDup (fst <$> tabela_familia prefix excluded d) /\
  (forall k q, (k, q) ∈ tabela_familia prefix excluded d ->
     exists col, col ∈ columns d /\ startswith prefix col = true /\
       col <> excluded /\ k = Str (title (replace prefix "" col)) /\
       q = count_present d (column d col) /\ (0 < q)%nat) /\
  (forall col, col ∈ columns d -> startswith prefix col = true ->
     col <> excluded -> (0 < count_present d (column d col))%nat ->
     Str (title (replace prefix "" col)) ∈ fst <$> tabela_familia prefix excluded d).
Proof.
  unfold tabela_familia.
  set (cols := cols_familia prefix excluded d).
  pose proof (sort_values_Permutation false (items (dados_familia prefix d cols)))
    as Hperm.
  destruct (dados_familia_invariant prefix d cols) as (Hnd & Hsound & Hcompl).
  split_and!.
  - rewrite Hperm. by apply NoDup_items.
  - intros k q. rewrite Hperm. unfold items.
    intros ([k' q'] & [= -> ->] & Hin)%list_elem_of_fmap.
    destruct (Hsound k' q' Hin) as (col & Hcol & -> & -> & Hpos).
    apply elem_of_cols_familia in Hcol as (Hcol & Hstart & Hne).
    by exists col.
  - intros col Hcol Hstart Hne Hpos. rewrite Hperm, keys_items.
    apply list_elem_of_fmap_2, Hcompl; [|done]. by apply elem_of_cols_familia.
Qed.

Lemma StronglySorted_app_elem {A : Type} (R : A -> A -> Prop) (l1 l2 : list A)
    (x y : A) :
  StronglySorted R (l1 ++ l2) -> x ∈ l1 -> y ∈ l2 -> R x y.
Proof.
  induction l1 as [|z l1 IH]; cbn; intros Hs Hx Hy.
  - by apply elem_of_nil in Hx.
  - apply StronglySorted_inv in Hs as [Hs Hz].
    apply elem_of_cons in Hx as [->|Hx]; [|by apply IH].
    rewrite Forall_forall in Hz. apply Hz, elem_of_app. by right.
Qed.

(** The chart of an indicator family shows the first rows of the family's
    table: the whole table when it has N entries at most, N entries
    otherwise; an entry of the table that the chart leaves out has no
    larger count than any entry shown; and no label is shown twice. *)
Theorem df_familia_keeps_largest (prefix excluded : string) (n : nat)
    (d : DataFrame) :
  df_familia prefix excluded n d `prefix_of` tabela_familia prefix excluded d /\
  length (df_familia prefix excluded n d)
  = (n `min` length (tabela_familia prefix excluded d))%nat /\
  ((length (tabela_familia prefix excluded d) <= n)%nat ->
     df_familia prefix excluded n d = tabela_familia prefix excluded d) /\
  NoDup (fst <$> df_familia prefix excluded n d) /\
  (forall x y, x ∈ df_familia prefix excluded n d ->
     y ∈ tabela_familia prefix excluded d ->
     y ∉ df_familia prefix excluded n d -> (Qtd y <= Qtd x)%nat).
Proof.
  change (df_familia prefix excluded n d)
    with (take n (tabela_familia prefix excluded d)).
  set (full := tabela_familia prefix excluded d).
  assert (StronglySorted falling full) as Hsorted by apply sort_values_falling.
  assert (NoDup (fst <$> full)) as Hnd.
  { unfold full, tabela_familia.
    rewrite (sort_values_Permutation false). apply NoDup_items.
    apply dados_familia_invariant. }
  split_and!.
  - apply prefix_take.
  - apply length_take.
  - intros Hle. by apply take_ge.
  - rewrite fmap_take. rewrite <- (take_drop n (fst <$> full)) in Hnd.
    by apply NoDup_app in Hnd as (Hnd & _).
  - intros x y Hx Hy Hny. rewrite <- (take_drop n full) in Hy, Hsorted.
    apply elem_of_app in Hy as [Hy|Hy]; [done|].
    exact (StronglySorted_app_elem _ _ _ _ _ Hsorted Hx Hy).
Qed.

(** ** No year selected *)

Lemma filtrado_nil (d : DataFrame) : filtrado d [] = mkDataFrame (columns d) [].
Proof.
  unfold filtrado, getitem_mask. f_equal.
  change (select (isin (Int <$> []) <$> column d "ANO_NOTIFICACAO") (rows d))
    with (rows (filtrado d [])).
  rewrite rows_filtrado. induction (rows d) as [|r l IH]; [done|].
  cbn [List.filter]. unfold isin at 1.
  rewrite bool_decide_eq_false_2; [done|]. cbn. apply not_elem_of_nil.
Qed.

Lemma dados_familia_no_rows (prefix : string) (cs cols : list string) :
  dados_familia prefix (mkDataFrame cs []) cols = [].
Proof.
  unfold dados_familia. induction cols as [|c cols IH]; [done|]. exact IH.
Qed.

(** With no year selected the filtered table has no row, and the panel
    shows that as such: on a table that has the columns the metrics read,
    the line of metrics completes and shows 0, 0, 0%, nothing being
    divided, and "-"; the chart of the age brackets keeps its five bars, of
    height zero; the chart of the types of violence keeps its bars, of
    length zero; every pie and the charts of both indicator families are
    empty. *)
Theorem no_year_selected (d : DataFrame) :
  len (filtrado d []) = 0%nat /\
  (forall (r : nat) (s : Store),
     heap s !! r = Some (filtrado d []) ->
     has_column d "VIOL_FISIC" = true ->
     has_column d "AUTOR_ALCO" = true ->
     has_column d "FAIXA_ETARIA" = true ->
     kpis r s
     = ({| heap := heap s;
           page := page s ++
             [st_columns 4;
              st_metric "Total de Casos Notificados" (MCount 0);
              st_metric "Casos c/ Violência Física" (MCount 0);
              st_metric "Suspeita de Álcool (Autor)" (MPercent 0);
              st_metric "Faixa Etária + Atingida" (MLabel (Str "-"))] |}, Ok tt)) /\
  category_counts labels (column (filtrado d []) "FAIXA_ETARIA")
  = (fun lab => (Str lab, 0%nat)) <$> labels /\
  (forall c, value_counts (column (filtrado d []) c) = []) /\
  value_counts (column (com_sexo_autor (filtrado d [])) "SEXO_AUTOR_DESC") = [] /\
  Forall (fun row => Qtd row = 0%nat) (df_viol_tipo (filtrado d [])) /\
  (forall prefix excluded n, df_familia prefix excluded n (filtrado d []) = []).
Proof.
  rewrite filtrado_nil. split_and!; try reflexivity.
  - intros r s Hd Hviol Halco Hfaixa.
    by rewrite (kpis_run r s _ Hd Hviol Halco Hfaixa).
  - unfold com_sexo_autor. by destruct (has_column _ "AUTOR_SEXO").
  - unfold df_viol_tipo.
    rewrite (sort_values_Permutation true). unfold items.
    rewrite dados_violencia_eq. apply Forall_fmap, Forall_forall.
    intros [nome q] ([col nome'] & Hin & Hsome)%list_elem_of_omap.
    destruct (has_column _ col); [|discriminate]. by injection Hsome as <- <-.
  - intros prefix excluded n. unfold df_familia.
    rewrite dados_familia_no_rows. by destruct n.
Qed.

(** ** The columns of the enriched table *)

Lemma extends_refl (df : DataFrame) : extends 0 df df.
Proof. unfold extends. split_and!; [done|done|lia]. Qed.

Lemma extends_trans (n m : nat) (df1 df2 df3 : DataFrame) :
  extends n df1 df2 -> extends m df2 df3 -> extends (n + m) df1 df3.
Proof.
  intros (Hp1 & Hn1 & Hl1) (Hp2 & Hn2 & Hl2). split_and!.
  - by etrans.
  - auto.
  - lia.
Qed.

Lemma extends_weaken (n m : nat) (df df' : DataFrame) :
  (n <= m)%nat -> extends n df df' -> extends m df df'.
Proof. intros Hnm (Hp & Hn & Hl). split_and!; [done|done|lia]. Qed.

Lemma extends_setitem (df : DataFrame) (col : string) (s : Series) :
  extends 1 df (setitem df col s).
Proof.
  unfold extends, setitem. cbn [columns].
  destruct (has_column df col) eqn:Hcol; [split_and!; [done|done|lia]|].
  apply bool_decide_eq_false in Hcol. split_and!.
  - by apply prefix_app_r.
  - intros Hnd. apply NoDup_app. split_and!; [done| |apply NoDup_singleton].
    intros x Hx ->%list_elem_of_singleton. done.
  - rewrite length_app. cbn. lia.
Qed.

Section Colunas.

Variable parse_datetime : Series -> Cell -> option Z.

Lemma columns_datas_step (df : DataFrame) (col : string) :
  columns (datas_step parse_datetime df col) = columns df.
Proof.
  unfold datas_step. destruct (has_column df col) eqn:Hcol; [|done].
  unfold setitem. cbn [columns]. by rewrite Hcol.
Qed.

Lemma columns_datas (df : DataFrame) :
  columns (datas parse_datetime df) = columns df.
Proof. unfold datas, cols_data. cbn [foldl]. by rewrite !columns_datas_step. Qed.

Lemma extends_derivados (d1 : DataFrame) : extends 5 d1 (derivados d1).
Proof.
  unfold derivados. cbv zeta.
  set (d2 := setitem d1 "ANO_NOTIFICACAO" _).
  set (d3 := setitem d2 "IDADE_CALCULADA" _).
  set (d4 := setitem d3 "FAIXA_ETARIA" _).
  apply (extends_trans 1 4 d1 d2); [apply extends_setitem|].
  apply (extends_trans 1 3 d2 d3); [apply extends_setitem|].
  apply (extends_trans 1 2 d3 d4); [apply extends_setitem|].
  apply (extends_trans 1 1 d4 (mapeamento_alcool d4)).
  - unfold mapeamento_alcool. destruct (has_column d4 "AUTOR_ALCO").
    + apply extends_setitem.
    + apply (extends_weaken 0); [lia|apply extends_refl].
  - unfold mapeamento_conjugal. destruct (has_column _ "SIT_CONJUG").
    + apply extends_setitem.
    + apply (extends_weaken 0); [lia|apply extends_refl].
Qed.

Lemma has_column_derivados_eq (d1 : DataFrame) (c : string) :
  has_column (derivados d1) c
  = has_column d1 c
    || bool_decide (c ∈ ["ANO_NOTIFICACAO"; "IDADE_CALCULADA"; "FAIXA_ETARIA"])
    || (bool_decide (c = "ALCOOL_DESC") && has_column d1 "AUTOR_ALCO")
    || (bool_decide (c = "SIT_CONJUG_DESC") && has_column d1 "SIT_CONJUG").
Proof.
  unfold derivados. cbv zeta.
  set (d2 := setitem d1 "ANO_NOTIFICACAO" _).
  set (d3 := setitem d2 "IDADE_CALCULADA" _).
  set (d4 := setitem d3 "FAIXA_ETARIA" _).
  assert (forall c', has_column d4 c'
            = has_column d1 c'
              || bool_decide (c' ∈ ["ANO_NOTIFICACAO"; "IDADE_CALCULADA"; "FAIXA_ETARIA"]))
    as Hd4.
  { intros c'. unfold d4, d3, d2. rewrite !has_column_setitem.
    rewrite <- !orb_assoc. f_equal.
    destruct (bool_decide_reflect (c' = "ANO_NOTIFICACAO")) as [->|H1]; [done|].
    destruct (bool_decide_reflect (c' = "IDADE_CALCULADA")) as [->|H2]; [done|].
    destruct (bool_decide_reflect (c' = "FAIXA_ETARIA")) as [->|H3]; [done|].
    symmetry. apply bool_decide_eq_false_2.
    rewrite !not_elem_of_cons. split_and!; [done..|apply not_elem_of_nil]. }
  assert (has_column (mapeamento_alcool d4) "SIT_CONJUG" = has_column d1 "SIT_CONJUG")
    as Hconj.
  { unfold mapeamento_alcool. destruct (has_column d4 "AUTOR_ALCO").
    - rewrite has_column_setitem, Hd4.
      rewrite (bool_decide_eq_false_2 (_ ∈ _)) by by_compute.
      by rewrite (bool_decide_eq_false_2 (_ = _)), !orb_false_r.
    - rewrite Hd4. rewrite (bool_decide_eq_false_2 (_ ∈ _)) by by_compute.
      by rewrite orb_false_r. }
  assert (has_column d4 "AUTOR_ALCO" = has_column d1 "AUTOR_ALCO") as Halco.
  { rewrite Hd4. rewrite (bool_decide_eq_false_2 (_ ∈ _)) by by_compute.
    by rewrite orb_false_r. }
  unfold mapeamento_conjugal. rewrite Hconj.
  unfold mapeamento_alcool. rewrite Halco.
  destruct (has_column d1 "SIT_CONJUG"), (has_column d1 "AUTOR_ALCO");
    rewrite ?has_column_setitem, Hd4, ?andb_true_r, ?andb_false_r, ?orb_false_r;
    [|done..].
  by rewrite <- !orb_assoc.
Qed.

(** The preparation keeps the columns of the spreadsheet, under their
    names and in their order, and adds the derived ones after them: the
    year, the age and the bracket always, the decoded alcohol use and
    marital status when the spreadsheet has their codes; it adds five
    columns at most and none twice. *)
Theorem tratamento_columns (raw df : DataFrame) :
  tratamento parse_datetime raw = Ok df ->
  columns raw `prefix_of` columns df /\
  (NoDup (columns raw) -> NoDup (columns df)) /\
  (length (columns df) <= length (columns raw) + 5)%nat /\
  (forall c, has_column df c
     = has_column raw c
       || bool_decide (c ∈ ["ANO_NOTIFICACAO"; "IDADE_CALCULADA"; "FAIXA_ETARIA"])
       || (bool_decide (c = "ALCOOL_DESC") && has_column raw "AUTOR_ALCO")
       || (bool_decide (c = "SIT_CONJUG_DESC") && has_column raw "SIT_CONJUG")).
Proof.
  intros Hok. destruct (tratamento_Ok _ _ _ Hok) as (_ & _ & ->).
  assert (columns (datas parse_datetime (filtro_sexo_feminino raw)) = columns raw)
    as Hcols by (by rewrite columns_datas, filtro_sexo_feminino_columns).
  destruct (extends_derivados (datas parse_datetime (filtro_sexo_feminino raw)))
    as (Hp & Hn & Hl).
  rewrite Hcols in Hp, Hn, Hl. split_and!; [done..|].
  intros c. rewrite has_column_derivados_eq. unfold has_column.
  by rewrite Hcols.
Qed.

End Colunas.

Lemma tratamento_columns_witness :
  columns com_autor `prefix_of` columns (returned (tratamento no_parse com_autor)) /\
  has_column (returned (tratamento no_parse com_autor)) "ALCOOL_DESC" = true /\
  has_column (returned (tratamento no_parse com_autor)) "SIT_CONJUG_DESC" = false.
Proof.
  assert (tratamento no_parse com_autor
          = Ok (returned (tratamento no_parse com_autor))) as Hok
    by (vm_compute; reflexivity).
  destruct (tratamento_columns no_parse _ _ Hok) as (Hprefix & _ & _ & Hcol).
  split; [exact Hprefix|]. rewrite !Hcol. split; reflexivity.
Defined.

(** ** The alcohol metric and the alcohol pie *)

Lemma decode_sim (c : Cell) :
  bool_decide (decode map_sinan c = Str "Sim") = eq_scalar 1 c.
Proof.
  destruct c as [|z| | |]; try reflexivity.
  cbn [eq_scalar]. destruct (Z.eqb_spec z 1) as [->|Hne]; [reflexivity|].
  apply bool_decide_eq_false_2. unfold decode, map_dict.
  destruct (map_sinan !! z) as [v|] eqn:Hz; [|done].
  unfold map_sinan in Hz. apply elem_of_list_to_map_2 in Hz.
  repeat (apply elem_of_cons in Hz as [Hz|Hz];
          [injection Hz as -> ->; done|]).
  by apply elem_of_nil in Hz.
Qed.

Lemma ocorrencias_sim (l : list (gmap string Cell)) :
  Forall (fun r => cell "ALCOOL_DESC" r = decode map_sinan (cell "AUTOR_ALCO" r)) l ->
  ocorrencias (Str "Sim") (cell "ALCOOL_DESC" <$> l)
  = length (List.filter (fun r => eq_scalar 1 (cell "AUTOR_ALCO" r)) l).
Proof.
  unfold ocorrencias. induction 1 as [|r l Hr _ IH]; [done|].
  rewrite fmap_cons. cbn [List.filter]. rewrite Hr, decode_sim.
  destruct (eq_scalar 1 (cell "AUTOR_ALCO" r)); cbn [length]; by rewrite IH.
Qed.

(** The metric of the alcohol use and the pie of the alcohol use agree:
    the rows that the metric counts, those with alcohol code 1, are the
    rows of the slice "Sim", whatever the years selected; the pie has that
    slice exactly when the count is not zero. *)
Theorem alcool_metric_matches_pie
    (parse_datetime : Series -> Cell -> option Z) (raw df : DataFrame)
    (anos_sel : list Z) :
  tratamento parse_datetime raw = Ok df ->
  has_column raw "AUTOR_ALCO" = true ->
  let d := filtrado df anos_sel in
  let alcool_sim := count_present d (column d "AUTOR_ALCO") in
  ocorrencias (Str "Sim") (column d "ALCOOL_DESC") = alcool_sim /\
  ((0 < alcool_sim)%nat ->
     (Str "Sim", alcool_sim) ∈ value_counts (column d "ALCOOL_DESC")) /\
  (alcool_sim = 0%nat ->
     Str "Sim" ∉ fst <$> value_counts (column d "ALCOOL_DESC")).
Proof.
  intros Hok Hraw. cbv zeta.
  destruct (tratamento_Ok _ _ _ Hok) as (_ & _ & ->).
  pose proof (derivados_columns (datas parse_datetime (filtro_sexo_feminino raw)))
    as (_ & _ & _ & Halco & _).
  cbv zeta in Halco.
  assert (has_column (datas parse_datetime (filtro_sexo_feminino raw)) "AUTOR_ALCO"
          = true) as Hd1.
  { rewrite has_column_datas. unfold has_column in *.
    by rewrite filtro_sexo_feminino_columns. }
  specialize (Halco Hd1). clear Hd1 Hok Hraw.
  generalize dependent (derivados (datas parse_datetime (filtro_sexo_feminino raw))).
  intros df Halco.
  unfold column in Halco. rewrite <- list_fmap_compose in Halco.
  apply fmap_eq_Forall in Halco.
  assert (ocorrencias (Str "Sim") (column (filtrado df anos_sel) "ALCOOL_DESC")
          = count_present (filtrado df anos_sel)
              (column (filtrado df anos_sel) "AUTOR_ALCO")) as Heq.
  { rewrite count_present_column. unfold column. apply ocorrencias_sim.
    eapply Forall_sublist_of; [|exact Halco].
    rewrite rows_filtrado. apply List_filter_sublist. }
  split_and!; [exact Heq| |].
  - intros Hpos. apply elem_of_value_counts. by split_and!.
  - intros Hzero ([k n] & Hk & Hin)%list_elem_of_fmap. cbn in Hk. subst k.
    apply elem_of_value_counts in Hin as (_ & Hn & ->). lia.
Qed.

Lemma alcool_metric_matches_pie_witness :
  (Str "Sim", 1%nat)
  ∈ value_counts
      (column (filtrado (returned (tratamento no_parse com_autor)) [2021])
         "ALCOOL_DESC").
Proof.
  assert (tratamento no_parse com_autor
          = Ok (returned (tratamento no_parse com_autor))) as Hok
    by (vm_compute; reflexivity).
  destruct (alcool_metric_matches_pie _ _ _ [2021] Hok eq_refl) as (_ & Hin & _).
  apply Hin. vm_compute. lia.
Defined.
